(** * book-search: the archive searcher of [src/index.ts]

    A shallow embedding of the class [ArchiveSearcher] and the properties
    its specification states about it.

    Conventions of the embedding.
    - A JavaScript string is a [string]; its characters stand for the code
      units U+0000..U+00FF, which is where the regular expressions of the
      program ([\w], [\s], [\d], [\b]) and [toLowerCase] are modelled.
    - A JavaScript number is an [option Z], [None] standing for [NaN].
    - An optional field ([x?: T]) is an [option T].
    - The collaborators of the class (the HTTP client, the HTML selector
      engine, the URL constructor, the host's calendar) are fields of a
      record, so that every function of the class is a function of its
      inputs.
    - A method that mutates [results], logs, sleeps or throws lives in a
      small state-and-exception monad [M]; the state survives a throw, as
      a JavaScript array that was pushed to survives a [catch]. *)

From Stdlib Require Import ZArith Lia Ascii String DecimalString.
From stdpp Require Import base decidable option list strings gmap.

Local Open Scope string_scope.
Local Open Scope Z_scope.
Local Open Scope list_scope.

(** ** Strings *)

Module JS.

Definition code (c : ascii) : Z := Z.of_N (N_of_ascii c).

Definition between (lo hi : Z) (c : ascii) : bool :=
  (lo <=? code c) && (code c <=? hi).

(** [\d] *)
Definition re_digit (c : ascii) : bool := between 48 57 c.

(** [\w] is [[A-Za-z0-9_]] *)
Definition re_word (c : ascii) : bool :=
  between 65 90 c || between 97 122 c || re_digit c || (code c =? 95).

(** [\s] below U+0100: tab, line feed, vertical tab, form feed, carriage
    return, space and the no-break space. [String.prototype.trim] removes
    the same characters. *)
Definition re_space (c : ascii) : bool :=
  between 9 13 c || (code c =? 32) || (code c =? 160).

(** [toLowerCase] on one code unit: A-Z and the capital letters of
    U+00C0..U+00DE (all but the multiplication sign U+00D7) move by 32.
    Beyond U+00FF the function of the language can turn a character that
    is no word character into one (U+212A, the Kelvin sign, becomes k); a
    statement about a single character is about this range only. *)
Definition lower_char (c : ascii) : ascii :=
  if between 65 90 c || (between 192 222 c && negb (code c =? 215))
  then ascii_of_N (Z.to_N (code c + 32))
  else c.

Fixpoint map_chars (f : ascii -> ascii) (s : string) : string :=
  match s with
  | EmptyString => EmptyString
  | String c t => String (f c) (map_chars f t)
  end.

Fixpoint filter_chars (keep : ascii -> bool) (s : string) : string :=
  match s with
  | EmptyString => EmptyString
  | String c t =>
      if keep c then String c (filter_chars keep t) else filter_chars keep t
  end.

Definition toLowerCase (s : string) : string := map_chars lower_char s.

(** [s.replace(/[^\w\s]/g, '')] *)
Definition strip_punctuation (s : string) : string :=
  filter_chars (fun c => re_word c || re_space c) s.

(** [hay.includes(needle)] *)
Fixpoint includes (hay needle : string) : bool :=
  String.prefix needle hay ||
  match hay with
  | EmptyString => false
  | String _ t => includes t needle
  end.

(** [!s] on a string: only the empty string is falsy. *)
Definition falsy (s : string) : bool := String.eqb s "".

(** [o || d] where [o] is an optional string. *)
Definition or_else (o : option string) (d : string) : string :=
  match o with
  | Some s => if falsy s then d else s
  | None => d
  end.

Fixpoint drop_spaces (s : string) : string :=
  match s with
  | EmptyString => EmptyString
  | String c t => if re_space c then drop_spaces t else s
  end.

Definition trim (s : string) : string :=
  String.rev (drop_spaces (String.rev (drop_spaces s))).

(** The quotation mark, as a one-character string. *)
Definition dquote : string := String (ascii_of_nat 34) EmptyString.

(** [s.slice(0, n)] *)
Definition slice0 (n : nat) (s : string) : string := String.substring 0 n s.

(** *** Numbers *)

Definition number : Type := option Z.

Definition digit_val (c : ascii) : Z := code c - 48.

Definition hex_val (c : ascii) : option Z :=
  if re_digit c then Some (code c - 48)
  else if between 97 102 c then Some (code c - 87)
  else if between 65 70 c then Some (code c - 55)
  else None.

(** The value of the longest prefix of digits, [acc] being the value read
    so far ([None] when nothing was read yet). *)
Fixpoint read_digits (acc : number) (s : string) : number :=
  match s with
  | String c t =>
      if re_digit c
      then read_digits (Some (10 * default 0 acc + digit_val c)) t
      else acc
  | EmptyString => acc
  end.

Fixpoint read_hex (acc : number) (s : string) : number :=
  match s with
  | String c t =>
      match hex_val c with
      | Some v => read_hex (Some (16 * default 0 acc + v)) t
      | None => acc
      end
  | EmptyString => acc
  end.

Definition read_unsigned (s : string) : number :=
  match s with
  | String "0" (String "x" t) | String "0" (String "X" t) => read_hex None t
  | _ => read_digits None s
  end.

(** [parseInt(s)] with no radix: leading white space, an optional sign, an
    optional [0x], then the longest prefix of digits; [NaN] when there is
    none. *)
Definition parseInt (s : string) : number :=
  match drop_spaces s with
  | String "-" t => Z.opp <$> read_unsigned t
  | String "+" t => read_unsigned t
  | t => read_unsigned t
  end.

(** [n.toString()] on an integer or [NaN]. *)
Definition Number_toString (n : number) : string :=
  match n with
  | Some z => NilZero.string_of_int (Z.to_int z)
  | None => "NaN"
  end.

(** *** The two regular expressions of [extractYear] *)

Inductive YearPattern : Type :=
  | Pat20xx   (* /\b20\d{2}\b/ *)
  | Pat4      (* /\b\d{4}\b/ *).

Definition word_at (c : option ascii) : bool :=
  match c with Some a => re_word a | None => false end.

(** [\b] holds between two positions exactly when one side is a word
    character and the other is not (the ends of the text are not). *)
Definition word_boundary (before after : option ascii) : bool :=
  xorb (word_at before) (word_at after).

Definition head_char (s : string) : option ascii :=
  match s with String c _ => Some c | EmptyString => None end.

Definition pattern_digits (p : YearPattern) (a b c d : ascii) : bool :=
  match p with
  | Pat20xx => Ascii.eqb a "2" && Ascii.eqb b "0" && re_digit c && re_digit d
  | Pat4 => re_digit a && re_digit b && re_digit c && re_digit d
  end.

(** The pattern matched at the start of [s], [prev] being the character
    just before it. *)
Definition match_here (p : YearPattern) (prev : option ascii) (s : string)
  : option string :=
  match s with
  | String a (String b (String c (String d rest))) =>
      if word_boundary prev (Some a) && pattern_digits p a b c d
         && word_boundary (Some d) (head_char rest)
      then Some (String a (String b (String c (String d EmptyString))))
      else None
  | _ => None
  end.

(** The leftmost match, as a regular expression without the [g] flag
    finds it. *)
Fixpoint search (p : YearPattern) (prev : option ascii) (s : string)
  : option string :=
  match match_here p prev s with
  | Some m => Some m
  | None =>
      match s with
      | EmptyString => None
      | String c t => search p (Some c) t
      end
  end.

(** [text.match(pattern)], reduced to [match[0]]. *)
Definition String_match (text : string) (p : YearPattern) : option string :=
  search p None text.

End JS.

(** ** The pure helpers of [ArchiveSearcher] *)

Record SearchResult : Type := mkResult {
  source : string;
  title : string;
  year : string;
  url : string;
  description : string
}.

#[global] Instance SearchResult_eq_dec : EqDecision SearchResult.
Proof. solve_decision. Defined.

Definition clean (s : string) : string :=
  JS.strip_punctuation (JS.toLowerCase s).

Definition verifyMagazineIdentity (magazine_name title : string) : bool :=
  if JS.falsy title then false
  else
    let cleanTitle := clean title in
    let cleanTarget := clean magazine_name in
    String.eqb cleanTitle cleanTarget || JS.includes cleanTitle cleanTarget.

Definition isYearInRange (year : string) : bool :=
  match JS.parseInt year with
  | Some yearNum => (2000 <=? yearNum) && (yearNum <=? 2025)
  | None => false
  end.

Definition yearPatterns : list JS.YearPattern := [JS.Pat20xx; JS.Pat4].

Fixpoint extractYear_from (patterns : list JS.YearPattern) (text : string)
  : string :=
  match patterns with
  | [] => "Unknown"
  | pattern :: rest =>
      match JS.String_match text pattern with
      | Some m0 =>
          let year := JS.parseInt m0 in
          if isYearInRange (JS.Number_toString year)
          then JS.Number_toString year
          else extractYear_from rest text
      | None => extractYear_from rest text
      end
  end.

Definition extractYear (text : string) : string :=
  extractYear_from yearPatterns text.


(** [deduplicateResults]: the filter's closure reads and extends the set
    [seen] while the list is scanned from left to right. *)
Fixpoint deduplicate_filter (seen : gset string) (results : list SearchResult)
  : list SearchResult :=
  match results with
  | [] => []
  | result :: rest =>
      if decide (url result ∈ seen)
      then deduplicate_filter seen rest
      else result :: deduplicate_filter ({[url result]} ∪ seen) rest
  end.

Definition deduplicateResults (results : list SearchResult)
  : list SearchResult :=
  deduplicate_filter ∅ results.

(** ** The shapes of the responses *)

Module ArchiveOrgResponse.
Record doc : Type := {
  identifier : string;
  title : string;
  year : option string;
  description : option string
}.
Record response_t : Type := { docs : option (list doc) }.
Record t : Type := { response : option response_t }.
End ArchiveOrgResponse.

Module GoogleBooksResponse.
Record volumeInfo_t : Type := {
  title : option string;
  publishedDate : option string;
  description : option string;
  previewLink : option string
}.
Record item : Type := { volumeInfo : option volumeInfo_t }.
Record t : Type := { items : option (list item) }.
End GoogleBooksResponse.

Module RedditResponse.
Record post_data : Type := {
  title : string;
  created_utc : Z;
  permalink : string;
  selftext : option string
}.
Record child : Type := { data : post_data }.
Record data_t : Type := { children : option (list child) }.
Record t : Type := { top_data : option data_t }.
End RedditResponse.

Module DigitalLibrary.
Record selector_t : Type := {
  container : string;
  title : string;
  date : option string;
  description : option string;
  link : string
}.
Record t : Type := {
  name : string;
  url : string;
  params : list (string * string);
  selector : selector_t
}.
End DigitalLibrary.

(** The elements of the array literal [searchEngines]. *)
Module SearchEngine.
Record selector_t : Type := {
  container : string;
  title : string;
  description : string;
  link : string
}.
Record t : Type := {
  name : string;
  url : string;
  params : list (string * string);
  selector : selector_t
}.
End SearchEngine.

(** What the program asks of a parsed HTML document: [$(selector)] and, on
    an element, [.text()], [.find(selector).text()] and
    [.find(selector).attr('href')]. *)
Module Cheerio.
Record Element : Type := {
  text : string;
  find_text : string -> string;
  find_href : string -> option string
}.
Record Document : Type := { select : string -> list Element }.
End Cheerio.

(** ** Effects *)

Inductive exn : Type := Thrown (msg : string).

(** Query parameters; a value is a list because [fl[]] and [sort[]] are
    arrays. *)
Definition Params : Type := list (string * list string).

Definition record_params (r : list (string * string)) : Params :=
  map (fun kv => (kv.1, [kv.2])) r.

Inductive Event : Type :=
  | EvGet (url : string) (params : Params)       (* client.get *)
  | EvDelay (ms : Z)                             (* setTimeout(resolve, ms) *)
  | EvError (msg : string) (error : exn)         (* console.error *).

Record Store : Type := mkStore {
  trace : list Event;
  results : list SearchResult
}.

Definition M (A : Type) : Type := Store -> Store * (exn + A).

Definition ret {A} (a : A) : M A := fun st => (st, inr a).

Definition bind {A B} (m : M A) (k : A -> M B) : M B :=
  fun st =>
    match m st with
    | (st', inr a) => k a st'
    | (st', inl e) => (st', inl e)
    end.

Definition throw {A} (e : exn) : M A := fun st => (st, inl e).

(** [try { body } catch (error) { handler }]: what [body] did to the store
    before it threw stays done. *)
Definition try_catch {A} (body : M A) (handler : exn -> M A) : M A :=
  fun st =>
    match body st with
    | (st', inl e) => handler e st'
    | (st', inr a) => (st', inr a)
    end.

Definition lift {A} (r : exn + A) : M A :=
  match r with inl e => throw e | inr a => ret a end.

Definition emit (ev : Event) : M unit :=
  fun st => (mkStore (trace st ++ [ev]) (results st), inr tt).

Definition push (r : SearchResult) : M unit :=
  fun st => (mkStore (trace st) (results st ++ [r]), inr tt).

Definition get_results : M (list SearchResult) :=
  fun st => (st, inr (results st)).

Notation "'let*' x ':=' m 'in' k" := (bind m (fun x => k))
  (at level 10, x name, m at level 100, k at level 200).
Notation "m ';;' k" := (bind m (fun _ => k))
  (at level 100, k at level 200, right associativity).

Definition when (b : bool) (m : M unit) : M unit := if b then m else ret tt.

(** [for (const x of l) body] and [$(...).each(...)]: a throw ends the
    loop. *)
Fixpoint for_each {X} (l : list X) (body : X -> M unit) : M unit :=
  match l with
  | [] => ret tt
  | x :: rest => body x ;; for_each rest body
  end.

(** [await new Promise(resolve => setTimeout(resolve, ms))] *)
Definition sleep (ms : Z) : M unit := emit (EvDelay ms).

Definition console_error (msg : string) (error : exn) : M unit :=
  emit (EvError msg error).

Definition empty_store : Store := mkStore [] [].

(** A call of an [async] method: the events it performed and the promise's
    outcome ([inl] is a rejection). *)
Definition run {A} (m : M A) : list Event * (exn + A) :=
  let '(st, r) := m empty_store in (trace st, r).

Definition outcome {A} (m : M A) : exn + A := (run m).2.
Definition events {A} (m : M A) : list Event := (run m).1.

(** [Promise.all]: rejects as soon as one of the promises does. *)
Fixpoint Promise_all {A} (ps : list (exn + A)) : exn + list A :=
  match ps with
  | [] => inr []
  | inl e :: _ => inl e
  | inr a :: rest =>
      match Promise_all rest with
      | inl e => inl e
      | inr l => inr (a :: l)
      end
  end.

(** ** The collaborators *)

Record AxiosInstance : Type := {
  get_ArchiveOrg : string -> Params -> exn + ArchiveOrgResponse.t;
  get_GoogleBooks : string -> Params -> exn + GoogleBooksResponse.t;
  get_Reddit : string -> Params -> exn + RedditResponse.t;
  get_any : string -> Params -> exn + string
}.

Record Platform : Type := {
  (** [cheerio.load(data)] *)
  cheerio_load : string -> Cheerio.Document;
  (** [new URL(href, base).toString()]; the constructor throws a
      [TypeError] on a string that does not parse. *)
  URL_toString : string -> string -> exn + string;
  (** [new Date(ms).getFullYear()], in the host's time zone. *)
  Date_getFullYear : Z -> JS.number
}.

Record ArchiveSearcher : Type := {
  client : AxiosInstance;
  magazine_name : string
}.

(** ** The five fetchers and the aggregator *)

Section Searcher.

Context (platform : Platform) (this : ArchiveSearcher).

(** [await this.client.get(url, { params })] *)
Definition http_get {A} (get : string -> Params -> exn + A)
    (url : string) (params : Params) : M A :=
  emit (EvGet url params) ;; lift (get url params).

Definition verify (title : string) : bool :=
  verifyMagazineIdentity (magazine_name this) title.

Definition archiveOrg_baseUrl : string :=
  "https://archive.org/advancedsearch.php".

Definition archiveOrg_params : Params :=
  [ ("q", ["title:(" +:+ JS.dquote +:+ magazine_name this +:+ JS.dquote
           +:+ ") AND mediatype:(texts)"]);
    ("fl[]", ["identifier"; "title"; "year"; "mediatype"; "description"]);
    ("sort[]", ["year asc"]);
    ("rows", ["100"]);
    ("output", ["json"]) ].

Definition archiveOrg_result (item : ArchiveOrgResponse.doc) : SearchResult :=
  {| source := "archive.org";
     title := ArchiveOrgResponse.title item;
     year := JS.or_else (ArchiveOrgResponse.year item) "Unknown";
     url := "https://archive.org/details/"
            +:+ ArchiveOrgResponse.identifier item;
     description := JS.or_else (ArchiveOrgResponse.description item) "" |}.

Definition searchArchiveOrg : M (list SearchResult) :=
  try_catch
    (let baseUrl := archiveOrg_baseUrl in
     let* data := http_get (get_ArchiveOrg (client this))
                           baseUrl archiveOrg_params in
     match ArchiveOrgResponse.response data ≫= ArchiveOrgResponse.docs with
     | Some docs =>
         for_each docs (fun item =>
           when (verify (ArchiveOrgResponse.title item))
                (push (archiveOrg_result item)))
     | None => ret tt
     end ;;
     get_results)
    (fun error =>
       console_error "Error searching archive.org:" error ;; ret []).

Definition googleBooks_baseUrl : string :=
  "https://www.googleapis.com/books/v1/volumes".

Definition googleBooks_params : Params :=
  [ ("q", ["intitle:" +:+ JS.dquote +:+ magazine_name this +:+ JS.dquote]);
    ("maxResults", ["40"]) ].

Definition googleBooks_year (volumeInfo : GoogleBooksResponse.volumeInfo_t)
  : string :=
  extractYear (JS.or_else (GoogleBooksResponse.publishedDate volumeInfo) "").

Definition googleBooks_result (volumeInfo : GoogleBooksResponse.volumeInfo_t)
    (vtitle : string) : SearchResult :=
  {| source := "google_books";
     title := vtitle;
     year := googleBooks_year volumeInfo;
     url := JS.or_else (GoogleBooksResponse.previewLink volumeInfo) "";
     description :=
       JS.or_else (GoogleBooksResponse.description volumeInfo) "" |}.

Definition googleBooks_item (item : GoogleBooksResponse.item) : M unit :=
  match GoogleBooksResponse.volumeInfo item with
  | Some volumeInfo =>
      match GoogleBooksResponse.title volumeInfo with
      | Some vtitle =>
          when (negb (JS.falsy vtitle))
            (let year := googleBooks_year volumeInfo in
             when (negb (String.eqb year "Unknown") && verify vtitle)
               (push (googleBooks_result volumeInfo vtitle)))
      | None => ret tt
      end
  | None => ret tt
  end.

Definition searchGoogleBooks : M (list SearchResult) :=
  try_catch
    (let baseUrl := googleBooks_baseUrl in
     let* data := http_get (get_GoogleBooks (client this))
                           baseUrl googleBooks_params in
     match GoogleBooksResponse.items data with
     | Some items => for_each items googleBooks_item
     | None => ret tt
     end ;;
     get_results)
    (fun error =>
       console_error "Error searching Google Books:" error ;; ret []).

Definition subreddits : list string :=
  ["magazines"; "archival"; "vintageculture"; "OldSchoolCool"].

Definition reddit_url (subreddit : string) : string :=
  "https://www.reddit.com/r/" +:+ subreddit +:+ "/search.json".

Definition reddit_params : Params :=
  [ ("q", ["title:" +:+ JS.dquote +:+ magazine_name this +:+ JS.dquote]);
    ("restrict_sr", ["on"]);
    ("sort", ["top"]);
    ("t", ["all"]) ].

Definition reddit_result (subreddit : string)
    (postData : RedditResponse.post_data) : SearchResult :=
  let year :=
    JS.Number_toString
      (Date_getFullYear platform (RedditResponse.created_utc postData * 1000))
  in
  {| source := "reddit/r/" +:+ subreddit;
     title := RedditResponse.title postData;
     year := year;
     url := "https://reddit.com" +:+ RedditResponse.permalink postData;
     description :=
       JS.slice0 200 (JS.or_else (RedditResponse.selftext postData) "") |}.

Definition reddit_body (subreddit : string) : M unit :=
    (let* data := http_get (get_Reddit (client this))
                           (reddit_url subreddit) reddit_params in
     match RedditResponse.top_data data ≫= RedditResponse.children with
     | Some children =>
         for_each children (fun post =>
           let postData := RedditResponse.data post in
           when (verify (RedditResponse.title postData))
                (push (reddit_result subreddit postData)))
     | None => ret tt
     end ;;
     sleep 2000).

Definition reddit_handler (subreddit : string) (error : exn) : M unit :=
  console_error ("Error searching Reddit " +:+ subreddit +:+ ":") error.

Definition reddit_unit (subreddit : string) : M unit :=
  try_catch (reddit_body subreddit) (reddit_handler subreddit).

Definition searchRedditArchives : M (list SearchResult) :=
  for_each subreddits reddit_unit ;; get_results.

Definition searchEngines : list SearchEngine.t :=
  [ {| SearchEngine.name := "Google";
       SearchEngine.url := "https://www.google.com/search";
       SearchEngine.params :=
         [ ("q", JS.dquote +:+ magazine_name this +:+ JS.dquote
                 +:+ " magazine");
           ("num", "100") ];
       SearchEngine.selector :=
         {| SearchEngine.container := ".g";
            SearchEngine.title := ".LC20lb";
            SearchEngine.description := ".VwiC3b";
            SearchEngine.link := "a[href]" |} |};
    {| SearchEngine.name := "Bing";
       SearchEngine.url := "https://www.bing.com/search";
       SearchEngine.params :=
         [ ("q", JS.dquote +:+ magazine_name this +:+ JS.dquote
                 +:+ " magazine");
           ("count", "50") ];
       SearchEngine.selector :=
         {| SearchEngine.container := ".b_algo";
            SearchEngine.title := "h2";
            SearchEngine.description := ".b_caption p";
            SearchEngine.link := "a[href]" |} |} ].

Definition engine_title (engine : SearchEngine.t)
    (element : Cheerio.Element) : string :=
  JS.trim
    (Cheerio.find_text element
       (SearchEngine.title (SearchEngine.selector engine))).

Definition engine_description (engine : SearchEngine.t)
    (element : Cheerio.Element) : string :=
  JS.trim
    (Cheerio.find_text element
       (SearchEngine.description (SearchEngine.selector engine))).

Definition engine_result (engine : SearchEngine.t)
    (element : Cheerio.Element) (href : string) : SearchResult :=
  let etitle := engine_title engine element in
  let edescription := engine_description engine element in
  {| source := SearchEngine.name engine;
     title := etitle;
     year := extractYear (etitle +:+ " " +:+ edescription);
     url := href;
     description := edescription |}.

Definition engine_element (engine : SearchEngine.t)
    (element : Cheerio.Element) : M unit :=
  let etitle := engine_title engine element in
  let eurl :=
    Cheerio.find_href element
      (SearchEngine.link (SearchEngine.selector engine)) in
  match eurl with
  | Some href =>
      when (negb (JS.falsy etitle) && negb (JS.falsy href) && verify etitle)
        (push (engine_result engine element href))
  | None => ret tt
  end.

Definition engine_body (engine : SearchEngine.t) : M unit :=
    (let params := record_params (SearchEngine.params engine) in
     let* data := http_get (get_any (client this))
                           (SearchEngine.url engine) params in
     let doc := cheerio_load platform data in
     for_each
       (Cheerio.select doc
          (SearchEngine.container (SearchEngine.selector engine)))
       (engine_element engine) ;;
     sleep 3000).

Definition engine_handler (engine : SearchEngine.t) (error : exn) : M unit :=
  console_error ("Error searching " +:+ SearchEngine.name engine +:+ ":") error.

Definition engine_unit (engine : SearchEngine.t) : M unit :=
  try_catch (engine_body engine) (engine_handler engine).

Definition searchGeneralWeb : M (list SearchResult) :=
  for_each searchEngines engine_unit ;; get_results.

Definition libraries : list DigitalLibrary.t :=
  [ {| DigitalLibrary.name := "HathiTrust";
       DigitalLibrary.url := "https://babel.hathitrust.org/cgi/ls";
       DigitalLibrary.params := [ ("q", magazine_name this) ];
       DigitalLibrary.selector :=
         {| DigitalLibrary.container := ".record";
            DigitalLibrary.title := ".title";
            DigitalLibrary.date := Some ".date";
            DigitalLibrary.description := Some ".description";
            DigitalLibrary.link := ".title a" |} |};
    {| DigitalLibrary.name := "Internet Archive";
       DigitalLibrary.url := "https://archive.org/search.php";
       DigitalLibrary.params := [ ("query", magazine_name this) ];
       DigitalLibrary.selector :=
         {| DigitalLibrary.container := ".item-ia";
            DigitalLibrary.title := ".ttl";
            DigitalLibrary.date := Some ".date";
            DigitalLibrary.description := Some ".C234";
            DigitalLibrary.link := ".ttl" |} |};
    {| DigitalLibrary.name := "Digital Public Library of America";
       DigitalLibrary.url := "https://dp.la/search";
       DigitalLibrary.params :=
         [ ("q", magazine_name this); ("type", "text") ];
       DigitalLibrary.selector :=
         {| DigitalLibrary.container := ".search-result";
            DigitalLibrary.title := ".title";
            DigitalLibrary.date := None;
            DigitalLibrary.description := Some ".description";
            DigitalLibrary.link := ".title a" |} |};
    {| DigitalLibrary.name := "WorldCat";
       DigitalLibrary.url := "https://www.worldcat.org/search";
       DigitalLibrary.params := [ ("q", magazine_name this) ];
       DigitalLibrary.selector :=
         {| DigitalLibrary.container := ".result";
            DigitalLibrary.title := ".title";
            DigitalLibrary.date := Some ".date";
            DigitalLibrary.description := Some ".description";
            DigitalLibrary.link := ".title a" |} |} ].

(** [$(element).find(selector)] with an absent selector finds nothing. *)
Definition find_text_opt (element : Cheerio.Element) (sel : option string)
  : string :=
  match sel with
  | Some s => Cheerio.find_text element s
  | None => ""
  end.

Definition library_title (library : DigitalLibrary.t)
    (element : Cheerio.Element) : string :=
  JS.trim
    (Cheerio.find_text element
       (DigitalLibrary.title (DigitalLibrary.selector library))).

(** [title && this.verifyMagazineIdentity(title)] *)
Definition library_accepts (library : DigitalLibrary.t)
    (element : Cheerio.Element) : bool :=
  negb (JS.falsy (library_title library element))
  && verify (library_title library element).

(** [new URL($(element).find(link).attr('href') || '', library.url)
    .toString()] *)
Definition library_link (library : DigitalLibrary.t)
    (element : Cheerio.Element) : exn + string :=
  URL_toString platform
    (JS.or_else
       (Cheerio.find_href element
          (DigitalLibrary.link (DigitalLibrary.selector library))) "")
    (DigitalLibrary.url library).

Definition library_result (library : DigitalLibrary.t)
    (element : Cheerio.Element) (resolved : string) : SearchResult :=
  {| source := DigitalLibrary.name library;
     title := library_title library element;
     year := extractYear (Cheerio.text element);
     url := resolved;
     description :=
       JS.trim
         (find_text_opt element
            (DigitalLibrary.description (DigitalLibrary.selector library))) |}.

Definition library_element (library : DigitalLibrary.t)
    (element : Cheerio.Element) : M unit :=
  when (library_accepts library element)
    (let* resolved := lift (library_link library element) in
     push (library_result library element resolved)).

Definition library_body (library : DigitalLibrary.t) : M unit :=
    (let* data := http_get (get_any (client this))
                           (DigitalLibrary.url library)
                           (record_params (DigitalLibrary.params library)) in
     let doc := cheerio_load platform data in
     for_each
       (Cheerio.select doc
          (DigitalLibrary.container (DigitalLibrary.selector library)))
       (library_element library) ;;
     sleep 2000).

Definition library_handler (library : DigitalLibrary.t) (error : exn)
  : M unit :=
  console_error
    ("Error searching " +:+ DigitalLibrary.name library +:+ ":") error.

Definition library_unit (library : DigitalLibrary.t) : M unit :=
  try_catch (library_body library) (library_handler library).

Definition searchDigitalLibraries : M (list SearchResult) :=
  for_each libraries library_unit ;; get_results.

Inductive Fetcher : Type :=
  | ArchiveOrg | GoogleBooks | RedditArchives | DigitalLibraries | GeneralWeb.

#[global] Instance Fetcher_eq_dec : EqDecision Fetcher.
Proof. solve_decision. Defined.

Definition fetchers : list Fetcher :=
  [ArchiveOrg; GoogleBooks; RedditArchives; DigitalLibraries; GeneralWeb].

Definition method (f : Fetcher) : M (list SearchResult) :=
  match f with
  | ArchiveOrg => searchArchiveOrg
  | GoogleBooks => searchGoogleBooks
  | RedditArchives => searchRedditArchives
  | DigitalLibraries => searchDigitalLibraries
  | GeneralWeb => searchGeneralWeb
  end.

Definition searchMethods : list (M (list SearchResult)) :=
  [ searchArchiveOrg;
    searchGoogleBooks;
    searchRedditArchives;
    searchDigitalLibraries;
    searchGeneralWeb ].

(** [searchAll]: each method is called on its own and has its own
    [results]; [Promise.all] keeps the order of [searchMethods]. *)
Definition searchAll : list SearchResult :=
  match Promise_all (map outcome searchMethods) with
  | inr results => deduplicateResults (concat results)
  | inl error => []
  end.

End Searcher.

(** ** The notions the specification uses *)

(** The value of a string of decimal digits. *)
Fixpoint decimal_from (acc : Z) (s : string) : option Z :=
  match s with
  | EmptyString => Some acc
  | String c t =>
      if JS.re_digit c then decimal_from (10 * acc + JS.digit_val c) t
      else None
  end.

Definition decimal_value (s : string) : option Z :=
  match s with
  | EmptyString => None
  | _ => decimal_from 0 s
  end.

Definition year_in_window (m : string) : bool :=
  match decimal_value m with
  | Some n => (2000 <=? n) && (n <=? 2025)
  | None => false
  end.

(** The year extractor in the specification's words: the match of the 20xx
    pattern, then the match of the four-digit pattern; the first of them
    whose value is in the window, else the sentinel. *)
Definition extractYear_spec (text : string) : string :=
  default "Unknown"
    (List.find year_in_window
       (omap (JS.String_match text) [JS.Pat20xx; JS.Pat4])).

(** [needle] occurs in [hay]. *)
Definition Substring (needle hay : string) : Prop :=
  exists before after, hay = before +:+ needle +:+ after.

(** The pattern [p] matches at offset [i] of [text]: four digits (the
    first two being 2 and 0 for [Pat20xx]) with a word boundary on each
    side. *)
Definition nth_char (text : string) (i : nat) : option ascii :=
  String.get i text.

(** The character just before offset [i]. *)
Definition prev_of (text : string) (i : nat) : option ascii :=
  match i with O => None | S j => nth_char text j end.

Definition matches_at (p : JS.YearPattern) (text : string) (i : nat)
    (m : string) : Prop :=
  exists a b c d,
    m = String a (String b (String c (String d EmptyString))) /\
    nth_char text i = Some a /\ nth_char text (i + 1) = Some b /\
    nth_char text (i + 2) = Some c /\ nth_char text (i + 3) = Some d /\
    JS.pattern_digits p a b c d = true /\
    JS.word_at (prev_of text i) = false /\
    JS.word_at (nth_char text (i + 4)) = false.

(** An absolute URL starts with a scheme: a letter, then letters, digits,
    [+], [-] or [.], then a colon. *)
Definition is_alpha (c : ascii) : bool :=
  JS.between 65 90 c || JS.between 97 122 c.

Fixpoint scheme_tail (s : string) : bool :=
  match s with
  | EmptyString => false
  | String c t =>
      if Ascii.eqb c ":" then true
      else if is_alpha c || JS.re_digit c || Ascii.eqb c "+"
              || Ascii.eqb c "-" || Ascii.eqb c "."
      then scheme_tail t
      else false
  end.

Definition is_absolute_url (s : string) : bool :=
  match s with
  | EmptyString => false
  | String c t => is_alpha c && scheme_tail t
  end.

Definition ends_with (suffix s : string) : bool :=
  String.prefix (String.rev suffix) (String.rev s).

(** Pacing as the specification words it: every request is followed by a
    delay of [ms] before the next request (or the end). *)
Fixpoint delay_comes_first (ms : Z) (tr : list Event) : bool :=
  match tr with
  | [] => false
  | EvDelay d :: _ => d =? ms
  | EvGet _ _ :: _ => false
  | EvError _ _ :: rest => delay_comes_first ms rest
  end.

Fixpoint paced (ms : Z) (tr : list Event) : bool :=
  match tr with
  | [] => true
  | EvGet _ _ :: rest => delay_comes_first ms rest && paced ms rest
  | _ :: rest => paced ms rest
  end.

Definition failed {A} (r : exn + A) : Prop :=
  match r with inl _ => True | inr _ => False end.

Fixpoint first_failure {A} (rs : list (exn + A)) : option exn :=
  match rs with
  | [] => None
  | inl e :: _ => Some e
  | inr _ :: rest => first_failure rest
  end.

(** What a loop over [l] pushes when the body, on [x], either skips
    ([None]), pushes a record, or throws: the records up to the first
    throw, and that throw. *)
Fixpoint collect {X} (step : X -> option (exn + SearchResult)) (l : list X)
  : list SearchResult * option exn :=
  match l with
  | [] => ([], None)
  | x :: rest =>
      match step x with
      | None => collect step rest
      | Some (inr r) => (r :: (collect step rest).1, (collect step rest).2)
      | Some (inl e) => ([], Some e)
      end
  end.

Section Specification.

Context (platform : Platform) (this : ArchiveSearcher).

Definition archive_request : exn + ArchiveOrgResponse.t :=
  get_ArchiveOrg (client this) archiveOrg_baseUrl (archiveOrg_params this).

Definition books_request : exn + GoogleBooksResponse.t :=
  get_GoogleBooks (client this) googleBooks_baseUrl (googleBooks_params this).

Definition reddit_request (subreddit : string) : exn + RedditResponse.t :=
  get_Reddit (client this) (reddit_url subreddit) (reddit_params this).

Definition engine_request (engine : SearchEngine.t) : exn + string :=
  get_any (client this) (SearchEngine.url engine)
          (record_params (SearchEngine.params engine)).

Definition library_request (library : DigitalLibrary.t) : exn + string :=
  get_any (client this) (DigitalLibrary.url library)
          (record_params (DigitalLibrary.params library)).

(** Every request of a fetcher fails. *)
Definition all_requests_fail (f : Fetcher) : Prop :=
  match f with
  | ArchiveOrg => failed archive_request
  | GoogleBooks => failed books_request
  | RedditArchives => Forall (fun s => failed (reddit_request s)) subreddits
  | DigitalLibraries =>
      Forall (fun l => failed (library_request l)) (libraries this)
  | GeneralWeb =>
      Forall (fun e => failed (engine_request e)) (searchEngines this)
  end.

(** What a fetcher contributes to [searchAll]. *)
Definition fetched (f : Fetcher) : list SearchResult :=
  match outcome (method platform this f) with
  | inr rs => rs
  | inl _ => []
  end.

(** *** What each fetcher does, as a function of the responses *)

Definition archive_docs (data : ArchiveOrgResponse.t)
  : list ArchiveOrgResponse.doc :=
  default [] (ArchiveOrgResponse.response data ≫= ArchiveOrgResponse.docs).

Definition archive_step (item : ArchiveOrgResponse.doc)
  : option (exn + SearchResult) :=
  if verify this (ArchiveOrgResponse.title item)
  then Some (inr (archiveOrg_result item))
  else None.

Definition archive_records : list SearchResult :=
  match archive_request with
  | inr data => (collect archive_step (archive_docs data)).1
  | inl _ => []
  end.

Definition archive_events : list Event :=
  EvGet archiveOrg_baseUrl (archiveOrg_params this) ::
  match archive_request with
  | inr _ => []
  | inl e => [EvError "Error searching archive.org:" e]
  end.

Definition books_step (item : GoogleBooksResponse.item)
  : option (exn + SearchResult) :=
  volumeInfo ← GoogleBooksResponse.volumeInfo item;
  vtitle ← GoogleBooksResponse.title volumeInfo;
  if negb (JS.falsy vtitle)
     && (negb (String.eqb (googleBooks_year volumeInfo) "Unknown")
         && verify this vtitle)
  then Some (inr (googleBooks_result volumeInfo vtitle))
  else None.

Definition books_records : list SearchResult :=
  match books_request with
  | inr data =>
      (collect books_step (default [] (GoogleBooksResponse.items data))).1
  | inl _ => []
  end.

Definition books_events : list Event :=
  EvGet googleBooks_baseUrl (googleBooks_params this) ::
  match books_request with
  | inr _ => []
  | inl e => [EvError "Error searching Google Books:" e]
  end.

Definition reddit_children (data : RedditResponse.t)
  : list RedditResponse.child :=
  default [] (RedditResponse.top_data data ≫= RedditResponse.children).

Definition reddit_step (subreddit : string) (post : RedditResponse.child)
  : option (exn + SearchResult) :=
  if verify this (RedditResponse.title (RedditResponse.data post))
  then Some (inr (reddit_result platform subreddit (RedditResponse.data post)))
  else None.

Definition reddit_records (subreddit : string) : list SearchResult :=
  match reddit_request subreddit with
  | inr data => (collect (reddit_step subreddit) (reddit_children data)).1
  | inl _ => []
  end.

Definition engine_elements (engine : SearchEngine.t) (data : string)
  : list Cheerio.Element :=
  Cheerio.select (cheerio_load platform data)
    (SearchEngine.container (SearchEngine.selector engine)).

Definition engine_step (engine : SearchEngine.t) (element : Cheerio.Element)
  : option (exn + SearchResult) :=
  href ← Cheerio.find_href element
            (SearchEngine.link (SearchEngine.selector engine));
  if negb (JS.falsy (engine_title engine element)) && negb (JS.falsy href)
     && verify this (engine_title engine element)
  then Some (inr (engine_result engine element href))
  else None.

Definition engine_records (engine : SearchEngine.t) : list SearchResult :=
  match engine_request engine with
  | inr data => (collect (engine_step engine) (engine_elements engine data)).1
  | inl _ => []
  end.

Definition library_elements (library : DigitalLibrary.t) (data : string)
  : list Cheerio.Element :=
  Cheerio.select (cheerio_load platform data)
    (DigitalLibrary.container (DigitalLibrary.selector library)).

Definition library_step (library : DigitalLibrary.t)
    (element : Cheerio.Element) : option (exn + SearchResult) :=
  if library_accepts this library element
  then Some (match library_link platform library element with
             | inr resolved => inr (library_result library element resolved)
             | inl e => inl e
             end)
  else None.

Definition library_records (library : DigitalLibrary.t)
  : list SearchResult :=
  match library_request library with
  | inr data =>
      (collect (library_step library) (library_elements library data)).1
  | inl _ => []
  end.

(** The links of the accepted elements of a library page, resolved. *)
Definition library_links (library : DigitalLibrary.t) (data : string)
  : list (exn + string) :=
  map (library_link platform library)
      (List.filter (library_accepts this library)
         (library_elements library data)).

(** The unit of a library threw: its request failed, or one of the links
    of its page did not resolve. *)
Definition library_threw (library : DigitalLibrary.t) : option exn :=
  match library_request library with
  | inr data => first_failure (library_links library data)
  | inl e => Some e
  end.

(** The event that follows the request of a unit: the delay when the unit
    ran to its end, the logged error when it threw. *)
Definition reddit_after (subreddit : string) : Event :=
  match reddit_request subreddit with
  | inr _ => EvDelay 2000
  | inl e => EvError ("Error searching Reddit " +:+ subreddit +:+ ":") e
  end.

Definition engine_after (engine : SearchEngine.t) : Event :=
  match engine_request engine with
  | inr _ => EvDelay 3000
  | inl e =>
      EvError ("Error searching " +:+ SearchEngine.name engine +:+ ":") e
  end.

Definition library_after (library : DigitalLibrary.t) : Event :=
  match library_threw library with
  | None => EvDelay 2000
  | Some e =>
      EvError ("Error searching " +:+ DigitalLibrary.name library +:+ ":") e
  end.

Definition reddit_get (subreddit : string) : Event :=
  EvGet (reddit_url subreddit) (reddit_params this).

Definition engine_get (engine : SearchEngine.t) : Event :=
  EvGet (SearchEngine.url engine)
        (record_params (SearchEngine.params engine)).

Definition library_get (library : DigitalLibrary.t) : Event :=
  EvGet (DigitalLibrary.url library)
        (record_params (DigitalLibrary.params library)).

(** What each fetcher returns. *)
Definition denotation (f : Fetcher) : list SearchResult :=
  match f with
  | ArchiveOrg => archive_records
  | GoogleBooks => books_records
  | RedditArchives => concat (map reddit_records subreddits)
  | DigitalLibraries => concat (map library_records (libraries this))
  | GeneralWeb => concat (map engine_records (searchEngines this))
  end.

(** A sequential run: for each unit in turn, its request and then the
    event that follows it. *)
Definition sequential_trace {U} (request after : U -> Event)
    (units : list U) : list Event :=
  concat (map (fun u => [request u; after u]) units).

End Specification.

(** ** The command line: [main] *)

(** A line written by [console.log] or by [console.error]. *)
Inductive Line : Type :=
  | Log (text : string)
  | Err (text : string).

Definition newline : string := String (ascii_of_nat 10) EmptyString.

(** [resultsBySource] is an object created by [{}]: its own properties, in
    the order of their creation, map a source to an array of results; a
    name it does not own is looked up in [Object.prototype]. *)
Definition JSObject : Type := list (string * list SearchResult).

Definition Object_prototype_names : list string :=
  [ "constructor"; "__defineGetter__"; "__defineSetter__"; "hasOwnProperty";
    "__lookupGetter__"; "__lookupSetter__"; "isPrototypeOf";
    "propertyIsEnumerable"; "toString"; "valueOf"; "__proto__";
    "toLocaleString" ].

Definition is_prototype_name (s : string) : bool :=
  existsb (String.eqb s) Object_prototype_names.

(** [acc[source].push(result)] when [source] is an own property. *)
Fixpoint push_own (s : string) (result : SearchResult) (acc : JSObject)
  : option JSObject :=
  match acc with
  | [] => None
  | (k, v) :: rest =>
      if String.eqb k s then Some ((k, v ++ [result]) :: rest)
      else match push_own s result rest with
           | Some rest' => Some ((k, v) :: rest')
           | None => None
           end
  end.

(** The callback of [results.reduce]. A source named as a property of
    [Object.prototype] is found there, so no array is created for it, and
    the call of [push] on what is found throws. *)
Definition group_step (acc : JSObject) (result : SearchResult)
  : exn + JSObject :=
  match push_own (source result) result acc with
  | Some acc' => inr acc'
  | None =>
      if is_prototype_name (source result)
      then inl (Thrown "TypeError: acc[result.source].push is not a function")
      else inr (acc ++ [(source result, [result])])
  end.

Fixpoint reduce_groups (acc : JSObject) (results : list SearchResult)
  : exn + JSObject :=
  match results with
  | [] => inr acc
  | result :: rest =>
      match group_step acc result with
      | inr acc' => reduce_groups acc' rest
      | inl e => inl e
      end
  end.

(** An array index is the decimal writing, without a leading zero, of an
    integer below 2^32 - 1. *)
Definition is_array_index (s : string) : bool :=
  match decimal_value s with
  | Some n =>
      (String.eqb s "0" || negb (String.prefix "0" s)) && (n <=? 4294967294)
  | None => false
  end.

Definition index_of (s : string) : Z := default 0 (decimal_value s).

Fixpoint insert_by_index {V} (kv : string * V) (l : list (string * V))
  : list (string * V) :=
  match l with
  | [] => [kv]
  | kv' :: rest =>
      if index_of kv.1 <=? index_of kv'.1 then kv :: l
      else kv' :: insert_by_index kv rest
  end.

Definition sort_by_index {V} (l : list (string * V)) : list (string * V) :=
  foldr insert_by_index [] l.

(** [Object.entries]: the array indices in ascending order, then the other
    names in the order of their creation. *)
Definition Object_entries {V} (o : list (string * V)) : list (string * V) :=
  sort_by_index (List.filter (fun kv => is_array_index kv.1) o)
  ++ List.filter (fun kv => negb (is_array_index kv.1)) o.

Definition print_result (result : SearchResult) : list Line :=
  [ Log (newline +:+ "Title: " +:+ title result);
    Log ("Year: " +:+ year result);
    Log ("URL: " +:+ url result) ]
  ++ (if JS.falsy (description result) then []
      else [ Log ("Description: " +:+ JS.slice0 200 (description result)
                  +:+ "...") ]).

Definition print_group (entry : string * list SearchResult) : list Line :=
  Log (newline +:+ "=== Results from " +:+ entry.1 +:+ " ===")
  :: concat (map print_result entry.2).

Definition usage : list Line :=
  [ Err "Please provide a magazine name as an argument.";
    Err ("Usage: node script.js " +:+ JS.dquote +:+ "Name" +:+ JS.dquote) ].

(** [main], for the arguments [process.argv.slice(2)]: the lines it writes
    and the code it exits with ([None] when it returns). The client is
    the one [axios.create] gives to the constructor. An error thrown in
    [main] is written by [main().catch(console.error)]. The errors the
    fetchers log during the search are in their own traces. *)
Definition main (axios_create : AxiosInstance) (platform : Platform)
    (args : list string) : list Line * option Z :=
  match args with
  | [] => (usage, Some 1)
  | magazineName :: _ =>
      let searcher :=
        {| client := axios_create; magazine_name := magazineName |} in
      let results := searchAll platform searcher in
      (Log ("Starting comprehensive search for: " +:+ magazineName)
       :: (if (0 <? length results)%nat
           then
             Log (newline +:+ "Found "
                  +:+ JS.Number_toString (Some (Z.of_nat (length results)))
                  +:+ " unique results:")
             :: match reduce_groups [] results with
                | inr resultsBySource =>
                    concat (map print_group (Object_entries resultsBySource))
                | inl error =>
                    match error with Thrown msg => [Err msg] end
                end
           else [Log "No results found."]),
       None)
  end.

(** *** Grouping, as the command line shows it *)

(** The distinct elements of a list, in the order of their first
    occurrence. *)
Fixpoint first_seen (l : list string) : list string :=
  match l with
  | [] => []
  | x :: rest =>
      x :: List.filter (fun y => negb (String.eqb y x)) (first_seen rest)
  end.

Definition with_source (s : string) (results : list SearchResult)
  : list SearchResult :=
  List.filter (fun r => String.eqb (source r) s) results.

Definition groups_of (results : list SearchResult) : JSObject :=
  map (fun s => (s, with_source s results)) (first_seen (map source results)).


(** A source that is neither an array index nor a name of
    [Object.prototype]. *)
Definition plain_source (s : string) : bool :=
  negb (is_array_index s) && negb (is_prototype_name s).


(** ** Sample worlds *)

Module Sample.

Definition network_error : exn := Thrown "Network Error".
Definition invalid_url : exn := Thrown "TypeError: Invalid URL".

(** A client every request of which fails. *)
Definition offline : AxiosInstance :=
  {| get_ArchiveOrg := fun _ _ => inl network_error;
     get_GoogleBooks := fun _ _ => inl network_error;
     get_Reddit := fun _ _ => inl network_error;
     get_any := fun _ _ => inl network_error |}.

(** The two documents of the end-to-end scenario. *)
Definition scenario_docs : list ArchiveOrgResponse.doc :=
  [ {| ArchiveOrgResponse.identifier := "wm12";
       ArchiveOrgResponse.title := "Widget Monthly";
       ArchiveOrgResponse.year := Some "2012";
       ArchiveOrgResponse.description := None |};
    {| ArchiveOrgResponse.identifier := "ut";
       ArchiveOrgResponse.title := "Unrelated Thing";
       ArchiveOrgResponse.year := Some "2012";
       ArchiveOrgResponse.description := None |} ].

Definition archive_response (docs : list ArchiveOrgResponse.doc)
  : ArchiveOrgResponse.t :=
  {| ArchiveOrgResponse.response :=
       Some {| ArchiveOrgResponse.docs := Some docs |} |}.

Definition archive_only (docs : list ArchiveOrgResponse.doc)
  : AxiosInstance :=
  {| get_ArchiveOrg := fun _ _ => inr (archive_response docs);
     get_GoogleBooks := fun _ _ => inl network_error;
     get_Reddit := fun _ _ => inl network_error;
     get_any := fun _ _ => inl network_error |}.

(** An issue of 1985 in the text archive. *)
Definition old_issue : ArchiveOrgResponse.doc :=
  {| ArchiveOrgResponse.identifier := "wm85";
     ArchiveOrgResponse.title := "Widget Monthly";
     ArchiveOrgResponse.year := Some "1985";
     ArchiveOrgResponse.description := None |}.

(** An issue the text archive gives no year for. *)
Definition undated_issue : ArchiveOrgResponse.doc :=
  {| ArchiveOrgResponse.identifier := "wmxx";
     ArchiveOrgResponse.title := "Widget Monthly";
     ArchiveOrgResponse.year := None;
     ArchiveOrgResponse.description := None |}.

(** A volume with a date and no preview link. *)
Definition volume_without_link : GoogleBooksResponse.item :=
  {| GoogleBooksResponse.volumeInfo :=
       Some {| GoogleBooksResponse.title := Some "Widget Monthly";
               GoogleBooksResponse.publishedDate := Some "2012-05-01";
               GoogleBooksResponse.description := None;
               GoogleBooksResponse.previewLink := None |} |}.

Definition books_only (items : list GoogleBooksResponse.item)
  : AxiosInstance :=
  {| get_ArchiveOrg := fun _ _ => inl network_error;
     get_GoogleBooks :=
       fun _ _ => inr {| GoogleBooksResponse.items := Some items |};
     get_Reddit := fun _ _ => inl network_error;
     get_any := fun _ _ => inl network_error |}.

(** A post of March 2026 in the first community. *)
Definition recent_post : RedditResponse.child :=
  {| RedditResponse.data :=
       {| RedditResponse.title := "Widget Monthly, the last issue";
          RedditResponse.created_utc := 1772323200;
          RedditResponse.permalink := "/r/magazines/comments/abc/widget/";
          RedditResponse.selftext := None |} |}.

Definition reddit_only : AxiosInstance :=
  {| get_ArchiveOrg := fun _ _ => inl network_error;
     get_GoogleBooks := fun _ _ => inl network_error;
     get_Reddit :=
       fun u _ =>
         if String.eqb u "https://www.reddit.com/r/magazines/search.json"
         then inr {| RedditResponse.top_data :=
                       Some {| RedditResponse.children :=
                                 Some [recent_post] |} |}
         else inl network_error;
     get_any := fun _ _ => inl network_error |}.

(** A page of the first library with two records; the link of the second
    one has no host, which the URL constructor refuses. *)
Definition record_element (etitle etext href : string) : Cheerio.Element :=
  {| Cheerio.text := etext;
     Cheerio.find_text :=
       fun sel => if String.eqb sel ".title" then etitle else "";
     Cheerio.find_href :=
       fun sel => if String.eqb sel ".title a" then Some href else None |}.

Definition hathi_page : string := "<html>two records</html>".

Definition hathi_document : Cheerio.Document :=
  {| Cheerio.select :=
       fun sel =>
         if String.eqb sel ".record"
         then [ record_element "Widget Monthly" "Widget Monthly 2012"
                  "/Record/100";
                record_element "Widget Monthly Index" "Widget Monthly Index"
                  "http://" ]
         else [] |}.

Definition empty_document : Cheerio.Document :=
  {| Cheerio.select := fun _ => [] |}.

Definition library_only : AxiosInstance :=
  {| get_ArchiveOrg := fun _ _ => inl network_error;
     get_GoogleBooks := fun _ _ => inl network_error;
     get_Reddit := fun _ _ => inl network_error;
     get_any :=
       fun u _ =>
         if String.eqb u "https://babel.hathitrust.org/cgi/ls"
         then inr hathi_page
         else inl network_error |}.

(** The URL constructor, tabulated on the links of the sample page (no
    other link occurs): a path is resolved against the origin of the base,
    and [http://] has no host. *)
Definition URL_table (href base : string) : exn + string :=
  if String.eqb href "/Record/100"
     && String.eqb base "https://babel.hathitrust.org/cgi/ls"
  then inr "https://babel.hathitrust.org/Record/100"
  else inl invalid_url.

(** The calendar year of a time stamp in milliseconds, for a host whose
    time zone is UTC (days are counted from 0000-03-01). *)
Definition utc_year (ms : Z) : JS.number :=
  if (Z.abs ms <=? 8640000000000000) then
    let z := ms / 86400000 + 719468 in
    let era := z / 146097 in
    let doe := z - era * 146097 in
    let yoe := (doe - doe / 1460 + doe / 36524 - doe / 146096) / 365 in
    let doy := doe - (365 * yoe + yoe / 4 - yoe / 100) in
    let mp := (5 * doy + 2) / 153 in
    Some (yoe + era * 400 + (if mp <? 10 then 0 else 1))
  else None.

Definition platform : Platform :=
  {| cheerio_load :=
       fun data =>
         if String.eqb data hathi_page then hathi_document
         else empty_document;
     URL_toString := URL_table;
     Date_getFullYear := utc_year |}.

Definition searcher (c : AxiosInstance) : ArchiveSearcher :=
  {| client := c; magazine_name := "Widget Monthly" |}.

End Sample.

(** ** Auxiliary definitions of the proofs *)

Definition digits : list ascii :=
  ["0"; "1"; "2"; "3"; "4"; "5"; "6"; "7"; "8"; "9"]%char.

Definition four (a b c d : ascii) : string :=
  String a (String b (String c (String d EmptyString))).

(** On a match of four digits, the range test on the printed number agrees
    with the window test on the match, and inside the window the printed
    number is the match itself. *)
Definition reprint_ok (a b c d : ascii) : bool :=
  let m := four a b c d in
  let printed := JS.Number_toString (JS.parseInt m) in
  Bool.eqb (isYearInRange printed) (year_in_window m)
  && (if year_in_window m then String.eqb printed m else true).

(** The requests of a run. *)
Definition is_get (ev : Event) : bool :=
  match ev with EvGet _ _ => true | _ => false end.

Definition requests (tr : list Event) : list Event := List.filter is_get tr.

(** The requests a fetcher is written to issue. *)
Definition planned_requests (this : ArchiveSearcher) (f : Fetcher)
  : list Event :=
  match f with
  | ArchiveOrg => [EvGet archiveOrg_baseUrl (archiveOrg_params this)]
  | GoogleBooks => [EvGet googleBooks_baseUrl (googleBooks_params this)]
  | RedditArchives => map (reddit_get this) subreddits
  | DigitalLibraries => map library_get (libraries this)
  | GeneralWeb => map engine_get (searchEngines this)
  end.

(** A client every request of which is answered, with nothing in it. *)
Definition quiet_client : AxiosInstance :=
  {| get_ArchiveOrg :=
       fun _ _ => inr {| ArchiveOrgResponse.response := None |};
     get_GoogleBooks := fun _ _ => inr {| GoogleBooksResponse.items := None |};
     get_Reddit := fun _ _ => inr {| RedditResponse.top_data := None |};
     get_any := fun _ _ => inr "<html></html>" |}.

(** The first library of the list, for the target of the samples. *)
Definition hathi_library : DigitalLibrary.t :=
  {| DigitalLibrary.name := "HathiTrust";
     DigitalLibrary.url := "https://babel.hathitrust.org/cgi/ls";
     DigitalLibrary.params := [ ("q", "Widget Monthly") ];
     DigitalLibrary.selector :=
       {| DigitalLibrary.container := ".record";
          DigitalLibrary.title := ".title";
          DigitalLibrary.date := Some ".date";
          DigitalLibrary.description := Some ".description";
          DigitalLibrary.link := ".title a" |} |}.

(** A result page of the first engine with one result, whose link is
    written relative to the engine. *)
Definition web_element : Cheerio.Element :=
  {| Cheerio.text := "Widget Monthly 2014 An issue.";
     Cheerio.find_text :=
       fun sel =>
         if String.eqb sel ".LC20lb" then "Widget Monthly 2014"
         else if String.eqb sel ".VwiC3b" then "An issue."
         else "";
     Cheerio.find_href :=
       fun sel =>
         if String.eqb sel "a[href]"
         then Some "/url?q=https://example.org/wm"
         else None |}.

Definition web_platform : Platform :=
  {| cheerio_load :=
       fun _ =>
         {| Cheerio.select :=
              fun sel => if String.eqb sel ".g" then [web_element] else [] |};
     URL_toString := Sample.URL_table;
     Date_getFullYear := Sample.utc_year |}.

Definition web_client : AxiosInstance :=
  {| get_ArchiveOrg := fun _ _ => inl Sample.network_error;
     get_GoogleBooks := fun _ _ => inl Sample.network_error;
     get_Reddit := fun _ _ => inl Sample.network_error;
     get_any :=
       fun u _ =>
         if String.eqb u "https://www.google.com/search"
         then inr "<html>one result</html>"
         else inl Sample.network_error |}.

(** A client whose first community answers the given posts. *)
Definition reddit_answering (posts : list RedditResponse.child)
  : AxiosInstance :=
  {| get_ArchiveOrg := fun _ _ => inl Sample.network_error;
     get_GoogleBooks := fun _ _ => inl Sample.network_error;
     get_Reddit :=
       fun u _ =>
         if String.eqb u "https://www.reddit.com/r/magazines/search.json"
         then inr {| RedditResponse.top_data :=
                       Some {| RedditResponse.children := Some posts |} |}
         else inl Sample.network_error;
     get_any := fun _ _ => inl Sample.network_error |}.

(** A post whose time stamp is beyond the range of [Date]. *)
Definition undatable_post : RedditResponse.child :=
  {| RedditResponse.data :=
       {| RedditResponse.title := "Widget Monthly scans";
          RedditResponse.created_utc := 10000000000000;
          RedditResponse.permalink := "/r/magazines/comments/xyz/scans/";
          RedditResponse.selftext := None |} |}.

Fixpoint repeat_string (n : nat) (s : string) : string :=
  match n with
  | O => EmptyString
  | S m => s +:+ repeat_string m s
  end.

(** A body of 210 characters. *)
Definition long_body : string := repeat_string 14 "Widget Monthly ".

Definition long_post : RedditResponse.child :=
  {| RedditResponse.data :=
       {| RedditResponse.title := "Widget Monthly, all issues";
          RedditResponse.created_utc := 1356998400;
          RedditResponse.permalink := "/r/magazines/comments/def/all/";
          RedditResponse.selftext := Some long_body |} |}.

(** Four digits whose value lies in the window start with 2 and 0. *)
Definition window_20xx_ok (a b c d : ascii) : bool :=
  implb (year_in_window (four a b c d))
        (Ascii.eqb a "2" && Ascii.eqb b "0").

(** * Properties *)

Example utc_year_ex :
  Sample.utc_year 0 = Some 1970 /\
  Sample.utc_year 1356998399999 = Some 2012 /\
  Sample.utc_year 1356998400000 = Some 2013 /\
  Sample.utc_year 951782400000 = Some 2000 /\
  Sample.utc_year (-1) = Some 1969.
Proof. vm_compute. repeat split. Qed.

(** ** Strings *)

Lemma re_digit_cases (c : ascii) : JS.re_digit c = true -> In c digits.
Proof.
  destruct c as [[] [] [] [] [] [] [] []]; vm_compute; intros H;
    try discriminate H; tauto.
Qed.

Lemma reprint_table :
  forallb (fun a => forallb (fun b => forallb (fun c =>
    forallb (fun d => reprint_ok a b c d) digits) digits) digits) digits
  = true.
Proof. vm_compute. reflexivity. Qed.

Lemma reprint_digits (a b c d : ascii) :
  JS.re_digit a = true -> JS.re_digit b = true ->
  JS.re_digit c = true -> JS.re_digit d = true ->
  reprint_ok a b c d = true.
Proof.
  intros Ha Hb Hc Hd.
  pose proof reprint_table as T.
  rewrite forallb_forall in T.
  specialize (T a (re_digit_cases a Ha)). rewrite forallb_forall in T.
  specialize (T b (re_digit_cases b Hb)). rewrite forallb_forall in T.
  specialize (T c (re_digit_cases c Hc)). rewrite forallb_forall in T.
  exact (T d (re_digit_cases d Hd)).
Qed.

Lemma pattern_digits_all (p : JS.YearPattern) (a b c d : ascii) :
  JS.pattern_digits p a b c d = true ->
  JS.re_digit a = true /\ JS.re_digit b = true /\
  JS.re_digit c = true /\ JS.re_digit d = true.
Proof.
  destruct p; simpl; rewrite !andb_true_iff.
  - intros [[[Ha Hb] Hc] Hd].
    apply Ascii.eqb_eq in Ha, Hb. subst. auto.
  - tauto.
Qed.

Lemma match_here_four p prev s m :
  JS.match_here p prev s = Some m ->
  exists a b c d, m = four a b c d /\ JS.pattern_digits p a b c d = true.
Proof.
  unfold JS.match_here.
  destruct s as [|a [|b [|c [|d rest]]]]; try discriminate.
  destruct (_ && _) eqn:E; [|discriminate].
  intros [= <-]. exists a, b, c, d. split; [reflexivity|].
  rewrite !andb_true_iff in E. tauto.
Qed.

Lemma search_unfold p prev s :
  JS.search p prev s =
  match JS.match_here p prev s with
  | Some m => Some m
  | None =>
      match s with
      | EmptyString => None
      | String c t => JS.search p (Some c) t
      end
  end.
Proof. destruct s; reflexivity. Qed.

Lemma search_four p s : forall prev m,
  JS.search p prev s = Some m ->
  exists a b c d, m = four a b c d /\ JS.pattern_digits p a b c d = true.
Proof.
  induction s as [|ch t IH]; intros prev m; rewrite search_unfold.
  - discriminate.
  - destruct (JS.match_here p prev (String ch t)) eqn:E.
    + intros [= <-]. eapply match_here_four, E.
    + apply IH.
Qed.

(** The scan finds the leftmost match. *)

Lemma get_beyond (t : string) :
  forall i, (String.length t <= i)%nat -> String.get i t = None.
Proof.
  induction t as [|c t IH]; intros i H; simpl in *.
  - reflexivity.
  - destruct i as [|i]; [lia|]. apply IH. lia.
Qed.

Lemma get_app_r (pre s : string) (k : nat) :
  String.get (String.length pre + k) (pre +:+ s) = String.get k s.
Proof.
  induction pre as [|c pre IH]; simpl; [reflexivity | exact IH].
Qed.

Lemma app_snoc (pre : string) (c : ascii) (t : string) :
  pre +:+ String c t = (pre +:+ String c "") +:+ t.
Proof.
  induction pre as [|x pre IH]; [reflexivity|].
  change (String x (pre +:+ String c t) =
          String x ((pre +:+ String c "") +:+ t)).
  f_equal. exact IH.
Qed.

Lemma length_snoc (pre : string) (c : ascii) :
  String.length (pre +:+ String c "") = S (String.length pre).
Proof.
  induction pre as [|x pre IH]; [reflexivity|].
  change (S (String.length (pre +:+ String c "")) = S (S (String.length pre))).
  f_equal. exact IH.
Qed.

Lemma app_empty (pre : string) : pre +:+ "" = pre.
Proof.
  induction pre as [|x pre IH]; [reflexivity|].
  change (String x (pre +:+ "") = String x pre). f_equal. exact IH.
Qed.

Lemma re_digit_word c : JS.re_digit c = true -> JS.re_word c = true.
Proof. unfold JS.re_word. intros ->. rewrite orb_true_r. reflexivity. Qed.

Lemma match_here_iff p prev s m :
  JS.match_here p prev s = Some m <->
  exists a b c d,
    m = four a b c d /\
    String.get 0 s = Some a /\ String.get 1 s = Some b /\
    String.get 2 s = Some c /\ String.get 3 s = Some d /\
    JS.pattern_digits p a b c d = true /\
    JS.word_at prev = false /\ JS.word_at (String.get 4 s) = false.
Proof.
  unfold JS.match_here.
  destruct s as [|a [|b [|c [|d rest]]]];
    try (split; [discriminate
               | intros (?&?&?&?&_&?&?&?&?&_); simpl in *; discriminate]).
  simpl String.get.
  assert (JS.head_char rest = String.get 0 rest) as ->
    by (destruct rest; reflexivity).
  split.
  - destruct (_ && _) eqn:E; [|discriminate]. intros [= <-].
    rewrite !andb_true_iff in E. destruct E as [[B1 D] B2].
    destruct (pattern_digits_all _ _ _ _ _ D) as (Ha & _ & _ & Hd).
    unfold JS.word_boundary in B1, B2. cbn [JS.word_at] in B1, B2.
    rewrite (re_digit_word _ Ha) in B1. rewrite (re_digit_word _ Hd) in B2.
    exists a, b, c, d. repeat split; auto.
    + destruct (JS.word_at prev); [discriminate | reflexivity].
    + destruct (JS.word_at (String.get 0 rest)); [discriminate | reflexivity].
  - intros (a' & b' & c' & d' & -> & [= <-] & [= <-] & [= <-] & [= <-]
            & D & B1 & B2).
    destruct (pattern_digits_all _ _ _ _ _ D) as (Ha & _ & _ & Hd).
    unfold JS.word_boundary. cbn [JS.word_at].
    rewrite B1, B2, D, (re_digit_word _ Ha), (re_digit_word _ Hd). reflexivity.
Qed.

Lemma match_here_at p pre s m :
  JS.match_here p (prev_of (pre +:+ s) (String.length pre)) s = Some m <->
  matches_at p (pre +:+ s) (String.length pre) m.
Proof.
  rewrite match_here_iff. unfold matches_at, nth_char.
  rewrite <- !(get_app_r pre s). rewrite Nat.add_0_r.
  reflexivity.
Qed.

Lemma matches_at_functional p text i m m' :
  matches_at p text i m -> matches_at p text i m' -> m = m'.
Proof.
  intros (a & b & c & d & -> & Ha & Hb & Hc & Hd & _)
         (a' & b' & c' & d' & -> & Ha' & Hb' & Hc' & Hd' & _).
  congruence.
Qed.

Lemma search_leftmost p s : forall pre m,
  JS.search p (prev_of (pre +:+ s) (String.length pre)) s = Some m <->
  exists i,
    (String.length pre <= i)%nat /\ matches_at p (pre +:+ s) i m /\
    forall j m',
      (String.length pre <= j < i)%nat -> ~ matches_at p (pre +:+ s) j m'.
Proof.
  induction s as [|c t IH]; intros pre m.
  - rewrite search_unfold. simpl JS.match_here. split; [discriminate|].
    intros (i & Hi & (a & b & c & d & _ & Ha & _) & _).
    unfold nth_char in Ha. rewrite get_beyond in Ha; [discriminate|].
    rewrite app_empty. exact Hi.
  - rewrite search_unfold.
    destruct (JS.match_here p _ (String c t)) as [m0|] eqn:E.
    + apply match_here_at in E. split.
      * intros [= <-]. exists (String.length pre). split; [lia|].
        split; [exact E|]. intros j m' Hj. lia.
      * intros (i & Hi & Hm & Hleft).
        destruct (decide (i = String.length pre)) as [->|Hne].
        -- f_equal. eapply matches_at_functional; eauto.
        -- exfalso. apply (Hleft (String.length pre) m0); [lia | exact E].
    + assert (forall m',
                ~ matches_at p (pre +:+ String c t) (String.length pre) m')
        as Hno.
      { intros m' Hm'. apply match_here_at in Hm'. congruence. }
      specialize (IH (pre +:+ String c "") m).
      rewrite <- app_snoc, length_snoc in IH.
      assert (prev_of (pre +:+ String c t) (S (String.length pre)) = Some c)
        as Hprev.
      { unfold prev_of, nth_char.
        rewrite <- (Nat.add_0_r (String.length pre)), get_app_r.
        reflexivity. }
      rewrite Hprev in IH. rewrite IH. split.
      * intros (i & Hi & Hm & Hleft). exists i. split; [lia|].
        split; [exact Hm|]. intros j m' Hj.
        destruct (decide (j = String.length pre)) as [->|Hne].
        -- apply Hno.
        -- apply Hleft. lia.
      * intros (i & Hi & Hm & Hleft).
        destruct (decide (i = String.length pre)) as [->|Hne].
        -- exfalso. exact (Hno _ Hm).
        -- exists i. split; [lia|]. split; [exact Hm|].
           intros j m' Hj. apply Hleft. lia.
Qed.

Lemma String_match_leftmost text p m :
  JS.String_match text p = Some m <->
  exists i, matches_at p text i m /\
    forall j m', (j < i)%nat -> ~ matches_at p text j m'.
Proof.
  unfold JS.String_match.
  rewrite (search_leftmost p text "" m). simpl. split.
  - intros (i & _ & Hm & Hl). exists i. split; [exact Hm|].
    intros j m' Hj. apply Hl. lia.
  - intros (i & Hm & Hl). exists i. split; [lia|]. split; [exact Hm|].
    intros j m' Hj. apply Hl. lia.
Qed.

Lemma match_reprint p text m :
  JS.String_match text p = Some m ->
  isYearInRange (JS.Number_toString (JS.parseInt m)) = year_in_window m /\
  (year_in_window m = true -> JS.Number_toString (JS.parseInt m) = m).
Proof.
  intros H. apply search_four in H as (a & b & c & d & -> & Hp).
  apply pattern_digits_all in Hp as (Ha & Hb & Hc & Hd).
  pose proof (reprint_digits a b c d Ha Hb Hc Hd) as R.
  unfold reprint_ok in R. apply andb_true_iff in R as [R1 R2].
  apply Bool.eqb_prop in R1. split; [exact R1|].
  intros W. rewrite W in R2. apply String.eqb_eq, R2.
Qed.

Lemma extractYear_from_step pattern rest text :
  extractYear_from (pattern :: rest) text =
  match JS.String_match text pattern with
  | Some m => if year_in_window m then m else extractYear_from rest text
  | None => extractYear_from rest text
  end.
Proof.
  simpl. destruct (JS.String_match text pattern) as [m|] eqn:E; [|reflexivity].
  destruct (match_reprint _ _ _ E) as [R1 R2]. rewrite R1.
  destruct (year_in_window m); [apply R2; reflexivity | reflexivity].
Qed.

Lemma extractYear_refines text : extractYear text = extractYear_spec text.
Proof.
  unfold extractYear, yearPatterns, extractYear_spec.
  rewrite !extractYear_from_step. simpl.
  destruct (JS.String_match text JS.Pat20xx) as [m1|];
    destruct (JS.String_match text JS.Pat4) as [m2|]; simpl;
    repeat match goal with |- context [year_in_window ?m] =>
      destruct (year_in_window m) end; reflexivity.
Qed.

(** The year extractor answers the sentinel or a year of the window. *)
Lemma extractYear_range text :
  extractYear text = "Unknown" \/ isYearInRange (extractYear text) = true.
Proof.
  unfold extractYear, yearPatterns. simpl.
  repeat match goal with
  | |- context [match ?o with Some _ => _ | None => _ end] => destruct o
  | |- context [if ?b then _ else _] => destruct b eqn:?
  end; auto.
Qed.

(** C5. The year extractor tries the 20xx pattern, then the four-digit
    pattern, and answers the first of the two matches whose value lies in
    [2000, 2025], else the sentinel; the match of a pattern is its
    leftmost occurrence between word boundaries. The four examples of the
    specification evaluate as it says. *)
Theorem extractYear_first_match_in_window :
  (forall text, extractYear text = extractYear_spec text) /\
  (forall text p m,
     JS.String_match text p = Some m <->
     exists i,
       matches_at p text i m /\
       forall j m', (j < i)%nat -> ~ matches_at p text j m') /\
  extractYear "Published 2015" = "2015" /\
  extractYear "copyright 1998" = "Unknown" /\
  extractYear "no digits here" = "Unknown" /\
  extractYear "issue 2030 retro" = "Unknown".
Proof.
  split; [exact extractYear_refines|].
  split; [exact String_match_leftmost|].
  repeat split; vm_compute; reflexivity.
Qed.

(** ** Identity verification *)

Lemma prefix_app (needle hay : string) :
  String.prefix needle hay = true <-> exists rest, hay = needle +:+ rest.
Proof.
  revert hay. induction needle as [|c t IH]; intros hay.
  - split; [intros _; exists hay; reflexivity | destruct hay; reflexivity].
  - destruct hay as [|c' hay']; simpl.
    + split; [discriminate | intros [rest [=]]].
    + destruct (ascii_dec c c') as [->|Hne].
      * rewrite IH. split.
        -- intros [rest ->]. exists rest. reflexivity.
        -- intros [rest [= ->]]. exists rest. reflexivity.
      * split; [discriminate | intros [rest [= -> _]]; congruence].
Qed.

Lemma includes_Substring (hay needle : string) :
  JS.includes hay needle = true <-> Substring needle hay.
Proof.
  unfold Substring. induction hay as [|c t IH].
  - cbn [JS.includes]. rewrite orb_false_r, prefix_app. split.
    + intros [rest H]. exists "", rest. exact H.
    + intros ([|b before] & rest & H).
      * exists rest. exact H.
      * discriminate H.
  - cbn [JS.includes]. rewrite orb_true_iff, IH, prefix_app. split.
    + intros [[rest H] | (before & rest & H)].
      * exists "", rest. exact H.
      * exists (String c before), rest. simpl. rewrite H. reflexivity.
    + intros ([|b before] & rest & H).
      * left. exists rest. exact H.
      * right. injection H as -> H. exists before, rest. exact H.
Qed.

Lemma falsy_empty (s : string) : JS.falsy s = true <-> s = "".
Proof. unfold JS.falsy. apply String.eqb_eq. Qed.

Lemma verify_iff (name candidate : string) :
  verifyMagazineIdentity name candidate = true <->
  candidate <> "" /\
  (clean candidate = clean name \/ Substring (clean name) (clean candidate)).
Proof.
  unfold verifyMagazineIdentity.
  destruct (JS.falsy candidate) eqn:F.
  - apply falsy_empty in F. split; [discriminate | tauto].
  - assert (candidate <> "") as Hne.
    { intros E. apply falsy_empty in E. congruence. }
    cbv zeta. rewrite orb_true_iff, String.eqb_eq, includes_Substring. tauto.
Qed.

(** Every character the normalisation keeps is a word character or white
    space, and none is a capital letter. *)
Lemma lower_char_not_capital (c : ascii) :
  JS.between 65 90 (JS.lower_char c) = false.
Proof. destruct c as [[] [] [] [] [] [] [] []]; vm_compute; reflexivity. Qed.

Lemma clean_chars (s : string) (i : nat) (c : ascii) :
  String.get i (clean s) = Some c ->
  (JS.re_word c || JS.re_space c) = true /\ JS.between 65 90 c = false.
Proof.
  unfold clean, JS.strip_punctuation, JS.toLowerCase.
  revert i. induction s as [|a t IH]; intros i; simpl; [discriminate|].
  destruct (JS.re_word (JS.lower_char a) || JS.re_space (JS.lower_char a))
    eqn:K.
  - destruct i as [|i]; simpl.
    + intros [= <-]. split; [exact K | apply lower_char_not_capital].
    + apply IH.
  - apply IH.
Qed.

(** C6. Identity verification accepts a candidate exactly when it is not
    empty and its normal form equals the normal form of the target or
    contains it; the normal form is the lower-cased string without the
    characters that are neither word characters nor white space, so it
    holds no capital letter and nothing but word characters and white
    space. Verification accepts a non-empty name against itself, rejects
    the empty candidate, and evaluates the two examples of the
    specification as stated. The target is the first argument here. *)
Theorem verify_normalised_substring :
  (forall target candidate,
     verifyMagazineIdentity target candidate = true <->
     candidate <> "" /\
     (clean candidate = clean target \/
      Substring (clean target) (clean candidate))) /\
  (forall s,
     clean s = JS.filter_chars (fun c => JS.re_word c || JS.re_space c)
                 (JS.map_chars JS.lower_char s)) /\
  (forall s i c,
     String.get i (clean s) = Some c ->
     (JS.re_word c || JS.re_space c) = true /\ JS.between 65 90 c = false) /\
  (forall x, x <> "" -> verifyMagazineIdentity x x = true) /\
  (forall target, verifyMagazineIdentity target "" = false) /\
  verifyMagazineIdentity "Target Weekly" "The Target Weekly Issue 4" = true /\
  verifyMagazineIdentity "Target Weekly" "Unrelated Journal" = false.
Proof.
  split; [exact verify_iff|].
  split; [reflexivity|].
  split; [exact clean_chars|].
  split.
  { intros x Hx. apply verify_iff. split; [exact Hx | left; reflexivity]. }
  split; [reflexivity|].
  split; vm_compute; reflexivity.
Qed.

Lemma verify_normalised_substring_witness :
  verifyMagazineIdentity "Widget Monthly" "Widget Monthly" = true.
Proof.
  apply (proj1 (proj2 (proj2 (proj2 verify_normalised_substring)))).
  discriminate.
Defined.

(** C10. When the normal form of the target is empty, every non-empty
    candidate is accepted. *)
Theorem verify_empty_target (target candidate : string) :
  clean target = "" -> candidate <> "" ->
  verifyMagazineIdentity target candidate = true.
Proof.
  intros Ht Hc. apply verify_iff. split; [exact Hc|].
  right. rewrite Ht. exists "", (clean candidate). reflexivity.
Qed.

Lemma verify_empty_target_witness :
  "?!" <> "" /\ clean "?!" = "" /\
  verifyMagazineIdentity "?!" "Unrelated Journal" = true.
Proof.
  split; [discriminate|]. split; [reflexivity|].
  apply verify_empty_target; [reflexivity | discriminate].
Defined.

(** ** Deduplication *)

Ltac membership :=
  rewrite ?elem_of_cons, ?elem_of_union, ?elem_of_singleton, ?elem_of_nil,
    ?elem_of_empty in *;
  intuition congruence.

Ltac decide_membership :=
  repeat match goal with
  | |- context [decide ?P] => destruct (decide P)
  end;
  try reflexivity; exfalso; membership.

Lemma deduplicate_filter_snoc (l : list SearchResult) :
  forall (seen : gset string) (r : SearchResult),
  deduplicate_filter seen (l ++ [r]) =
  deduplicate_filter seen l ++
  (if decide (url r ∈ seen \/ url r ∈ map url l) then [] else [r]).
Proof.
  induction l as [|x l IH]; intros seen r; simpl.
  - decide_membership.
  - destruct (decide (url x ∈ seen)) as [Hx|Hx]; rewrite IH; simpl;
      decide_membership.
Qed.

Lemma deduplicate_filter_count (u : string) (l : list SearchResult) :
  forall seen : gset string,
  length (filter (fun r => url r = u) (deduplicate_filter seen l)) =
  if decide (u ∈ seen) then 0%nat
  else if decide (u ∈ map url l) then 1%nat else 0%nat.
Proof.
  induction l as [|x l IH]; intros seen; simpl.
  - decide_membership.
  - destruct (decide (url x ∈ seen)) as [Hx|Hx].
    + rewrite IH. decide_membership.
    + rewrite filter_cons. destruct (decide (url x = u)) as [E|E]; simpl;
        rewrite IH; decide_membership.
Qed.

Lemma deduplicate_filter_sublist (l : list SearchResult) :
  forall seen : gset string, sublist (deduplicate_filter seen l) l.
Proof.
  induction l as [|x l IH]; intros seen; simpl.
  - constructor.
  - destruct (decide _); [apply sublist_cons | apply sublist_skip]; apply IH.
Qed.

(** C2. Deduplication keeps a record exactly when its url was not seen
    earlier in the list; whenever two records of the input share a url
    (and differ in title), the output holds exactly one record with that
    url. *)
Theorem deduplicate_first_url_wins :
  (forall (l : list SearchResult) (r : SearchResult),
     deduplicateResults (l ++ [r]) =
     deduplicateResults l ++
     (if decide (url r ∈ map url l) then [] else [r])) /\
  (forall l : list SearchResult, sublist (deduplicateResults l) l) /\
  (forall (l : list SearchResult) (r1 r2 : SearchResult),
     r1 ∈ l -> r2 ∈ l -> url r1 = url r2 -> title r1 <> title r2 ->
     length (filter (fun r => url r = url r1) (deduplicateResults l))
     = 1%nat).
Proof.
  unfold deduplicateResults. split; [|split].
  - intros l r. rewrite deduplicate_filter_snoc. decide_membership.
  - intros l. apply deduplicate_filter_sublist.
  - intros l r1 r2 H1 _ _ _. rewrite deduplicate_filter_count.
    destruct (decide _) as [H|_]; [membership|].
    destruct (decide _) as [_|H]; [reflexivity|].
    exfalso. apply H. apply (list_elem_of_fmap_2 url). exact H1.
Qed.

Lemma deduplicate_first_url_wins_witness :
  length
    (filter (fun r => url r = "https://archive.org/details/wm12")
       (deduplicateResults
          [ mkResult "archive.org" "Widget Monthly" "2012"
              "https://archive.org/details/wm12" "";
            mkResult "Internet Archive" "Widget Monthly 2012" "2012"
              "https://archive.org/details/wm12" "" ]))
  = 1%nat.
Proof.
  apply (proj2 (proj2 deduplicate_first_url_wins) _
           (mkResult "archive.org" "Widget Monthly" "2012"
              "https://archive.org/details/wm12" "")
           (mkResult "Internet Archive" "Widget Monthly 2012" "2012"
              "https://archive.org/details/wm12" "")).
  - apply list_elem_of_here.
  - apply list_elem_of_further, list_elem_of_here.
  - reflexivity.
  - discriminate.
Defined.

(** ** The fetchers, as functions of the responses *)

Lemma store_eta (st : Store) : mkStore (trace st) (results st) = st.
Proof. destruct st; reflexivity. Qed.

Lemma for_each_collect {X} (step : X -> option (exn + SearchResult))
    (body : X -> M unit) (l : list X) :
  (forall x st,
     body x st =
     match step x with
     | None => (st, inr tt)
     | Some (inr r) => (mkStore (trace st) (results st ++ [r]), inr tt)
     | Some (inl e) => (st, inl e)
     end) ->
  forall st,
    for_each l body st =
    (mkStore (trace st) (results st ++ (collect step l).1),
     match (collect step l).2 with Some e => inl e | None => inr tt end).
Proof.
  intros Hbody. induction l as [|x l IH]; intros st; simpl.
  - rewrite app_nil_r, store_eta. reflexivity.
  - unfold bind. rewrite Hbody. destruct (step x) as [[e|r]|].
    + rewrite app_nil_r, store_eta. reflexivity.
    + rewrite IH. simpl. rewrite <- app_assoc. reflexivity.
    + apply IH.
Qed.

(** A loop over units each of which appends its events and its records,
    and never throws. *)
Lemma for_each_units {U} (unit_of : U -> M unit) (evs : U -> list Event)
    (recs : U -> list SearchResult) (units : list U) :
  (forall u st,
     unit_of u st =
     (mkStore (trace st ++ evs u) (results st ++ recs u), inr tt)) ->
  forall st,
    for_each units unit_of st =
    (mkStore (trace st ++ concat (map evs units))
             (results st ++ concat (map recs units)), inr tt).
Proof.
  intros Hunit. induction units as [|u units IH]; intros st; simpl.
  - rewrite !app_nil_r, store_eta. reflexivity.
  - unfold bind. rewrite Hunit, IH. simpl. rewrite <- !app_assoc.
    reflexivity.
Qed.

Lemma collect_no_throw {X} (step : X -> option (exn + SearchResult))
    (l : list X) :
  (forall x e, step x <> Some (inl e)) -> (collect step l).2 = None.
Proof.
  intros H. induction l as [|x l IH]; simpl; [reflexivity|].
  destruct (step x) as [[e|r]|] eqn:E; auto.
  exfalso. exact (H x e E).
Qed.

Section Runs.

Context (platform : Platform) (this : ArchiveSearcher).

Lemma archive_body_step item st :
  when (verify this (ArchiveOrgResponse.title item))
       (push (archiveOrg_result item)) st =
  match archive_step this item with
  | None => (st, inr tt)
  | Some (inr r) => (mkStore (trace st) (results st ++ [r]), inr tt)
  | Some (inl e) => (st, inl e)
  end.
Proof.
  unfold archive_step. destruct (verify this _); reflexivity.
Qed.

Lemma archive_step_no_throw item e : archive_step this item <> Some (inl e).
Proof. unfold archive_step. destruct (verify this _); discriminate. Qed.

Lemma searchArchiveOrg_run :
  run (searchArchiveOrg this) =
  (archive_events this, inr (archive_records this)).
Proof.
  unfold run, searchArchiveOrg, try_catch, bind, http_get, bind, emit, lift,
    archive_events, archive_records, archive_request, archive_docs.
  simpl.
  destruct (get_ArchiveOrg _ _ _) as [e|data]; simpl; [reflexivity|].
  destruct (ArchiveOrgResponse.response data ≫= ArchiveOrgResponse.docs)
    as [docs|]; simpl; [|reflexivity].
  rewrite (for_each_collect (archive_step this)) by apply archive_body_step.
  rewrite collect_no_throw by apply archive_step_no_throw. reflexivity.
Qed.

Lemma books_body_step item st :
  googleBooks_item this item st =
  match books_step this item with
  | None => (st, inr tt)
  | Some (inr r) => (mkStore (trace st) (results st ++ [r]), inr tt)
  | Some (inl e) => (st, inl e)
  end.
Proof.
  unfold googleBooks_item, books_step.
  destruct (GoogleBooksResponse.volumeInfo item) as [vi|]; simpl;
    [|reflexivity].
  destruct (GoogleBooksResponse.title vi) as [t|]; simpl; [|reflexivity].
  destruct (JS.falsy t); simpl; [reflexivity|].
  destruct (negb _ && verify this t); reflexivity.
Qed.

Lemma books_step_no_throw item e : books_step this item <> Some (inl e).
Proof.
  unfold books_step.
  destruct (GoogleBooksResponse.volumeInfo item) as [vi|]; simpl;
    [|discriminate].
  destruct (GoogleBooksResponse.title vi) as [t|]; simpl; [|discriminate].
  destruct (_ && _); discriminate.
Qed.

Lemma searchGoogleBooks_run :
  run (searchGoogleBooks this) = (books_events this, inr (books_records this)).
Proof.
  unfold run, searchGoogleBooks, try_catch, bind, http_get, bind, emit, lift,
    books_events, books_records, books_request.
  simpl.
  destruct (get_GoogleBooks _ _ _) as [e|data]; simpl; [reflexivity|].
  destruct (GoogleBooksResponse.items data) as [items|]; simpl;
    [|reflexivity].
  rewrite (for_each_collect (books_step this)) by apply books_body_step.
  rewrite collect_no_throw by apply books_step_no_throw. reflexivity.
Qed.

Lemma reddit_body_step subreddit post st :
  when (verify this (RedditResponse.title (RedditResponse.data post)))
       (push (reddit_result platform subreddit (RedditResponse.data post))) st
  =
  match reddit_step platform this subreddit post with
  | None => (st, inr tt)
  | Some (inr r) => (mkStore (trace st) (results st ++ [r]), inr tt)
  | Some (inl e) => (st, inl e)
  end.
Proof.
  unfold reddit_step. destruct (verify this _); reflexivity.
Qed.

Lemma reddit_step_no_throw subreddit post e :
  reddit_step platform this subreddit post <> Some (inl e).
Proof. unfold reddit_step. destruct (verify this _); discriminate. Qed.

Lemma reddit_unit_run subreddit st :
  reddit_unit platform this subreddit st =
  (mkStore
     (trace st ++ [reddit_get this subreddit; reddit_after this subreddit])
     (results st ++ reddit_records platform this subreddit), inr tt).
Proof.
  unfold reddit_unit, reddit_body, reddit_handler, console_error, sleep,
    try_catch, bind, http_get, bind, emit, lift, reddit_get, reddit_after,
    reddit_records, reddit_request, reddit_children.
  simpl.
  destruct (get_Reddit _ _ _) as [e|data]; simpl.
  - rewrite app_nil_r, <- app_assoc. reflexivity.
  - destruct (RedditResponse.top_data data ≫= RedditResponse.children)
      as [children|]; simpl.
    + rewrite (for_each_collect (reddit_step platform this subreddit))
        by apply reddit_body_step.
      rewrite collect_no_throw by apply reddit_step_no_throw. simpl.
      rewrite <- app_assoc. reflexivity.
    + rewrite app_nil_r, <- app_assoc. reflexivity.
Qed.

Lemma searchRedditArchives_run :
  run (searchRedditArchives platform this) =
  (sequential_trace (reddit_get this) (reddit_after this) subreddits,
   inr (concat (map (reddit_records platform this) subreddits))).
Proof.
  unfold run, searchRedditArchives, bind, get_results, sequential_trace.
  rewrite (for_each_units _ _ _ _ reddit_unit_run). reflexivity.
Qed.

Lemma engine_body_step engine element st :
  engine_element this engine element st =
  match engine_step this engine element with
  | None => (st, inr tt)
  | Some (inr r) => (mkStore (trace st) (results st ++ [r]), inr tt)
  | Some (inl e) => (st, inl e)
  end.
Proof.
  unfold engine_element, engine_step.
  destruct (Cheerio.find_href element _) as [href|]; simpl; [|reflexivity].
  destruct (_ && _); reflexivity.
Qed.

Lemma engine_step_no_throw engine element e :
  engine_step this engine element <> Some (inl e).
Proof.
  unfold engine_step.
  destruct (Cheerio.find_href element _) as [href|]; simpl; [|discriminate].
  destruct (_ && _); discriminate.
Qed.

Lemma engine_unit_run engine st :
  engine_unit platform this engine st =
  (mkStore (trace st ++ [engine_get engine; engine_after this engine])
           (results st ++ engine_records platform this engine), inr tt).
Proof.
  unfold engine_unit, engine_body, engine_handler, console_error, sleep,
    try_catch, bind, http_get, bind, emit, lift, engine_get, engine_after,
    engine_records, engine_request, engine_elements.
  simpl.
  destruct (get_any _ _ _) as [e|data]; simpl.
  - rewrite app_nil_r, <- app_assoc. reflexivity.
  - rewrite (for_each_collect (engine_step this engine))
      by apply engine_body_step.
    rewrite collect_no_throw by apply engine_step_no_throw. simpl.
    rewrite <- app_assoc. reflexivity.
Qed.

Lemma searchGeneralWeb_run :
  run (searchGeneralWeb platform this) =
  (sequential_trace engine_get (engine_after this) (searchEngines this),
   inr (concat (map (engine_records platform this) (searchEngines this)))).
Proof.
  unfold run, searchGeneralWeb, bind, get_results, sequential_trace.
  rewrite (for_each_units _ _ _ _ engine_unit_run). reflexivity.
Qed.

Lemma library_body_step library element st :
  library_element platform this library element st =
  match library_step platform this library element with
  | None => (st, inr tt)
  | Some (inr r) => (mkStore (trace st) (results st ++ [r]), inr tt)
  | Some (inl e) => (st, inl e)
  end.
Proof.
  unfold library_element, library_step, bind, lift.
  destruct (library_accepts this library element); simpl; [|reflexivity].
  destruct (library_link platform library element); reflexivity.
Qed.

Lemma library_collect_throw library (elements : list Cheerio.Element) :
  (collect (library_step platform this library) elements).2 =
  first_failure
    (map (library_link platform library)
         (List.filter (library_accepts this library) elements)).
Proof.
  induction elements as [|x l IH]; simpl; [reflexivity|].
  unfold library_step at 1.
  destruct (library_accepts this library x); simpl; [|exact IH].
  destruct (library_link platform library x); simpl;
    [reflexivity | exact IH].
Qed.

Lemma library_unit_run library st :
  library_unit platform this library st =
  (mkStore
     (trace st ++ [library_get library; library_after platform this library])
     (results st ++ library_records platform this library), inr tt).
Proof.
  unfold library_unit, library_body, library_handler, console_error, sleep,
    try_catch, bind, http_get, bind, emit, lift, library_get, library_after,
    library_threw, library_links, library_records, library_request.
  simpl.
  destruct (get_any _ _ _) as [e|data]; simpl.
  - rewrite app_nil_r, <- app_assoc. reflexivity.
  - fold (library_elements platform library data).
    rewrite (for_each_collect (library_step platform this library))
      by apply library_body_step.
    rewrite <- library_collect_throw.
    destruct (collect _ _).2; simpl; rewrite <- app_assoc; reflexivity.
Qed.

Lemma searchDigitalLibraries_run :
  run (searchDigitalLibraries platform this) =
  (sequential_trace library_get (library_after platform this)
     (libraries this),
   inr (concat (map (library_records platform this) (libraries this)))).
Proof.
  unfold run, searchDigitalLibraries, bind, get_results, sequential_trace.
  rewrite (for_each_units _ _ _ _ library_unit_run). reflexivity.
Qed.

Lemma outcome_method (f : Fetcher) :
  outcome (method platform this f) = inr (denotation platform this f).
Proof.
  unfold outcome. destruct f; simpl.
  - rewrite searchArchiveOrg_run. reflexivity.
  - rewrite searchGoogleBooks_run. reflexivity.
  - rewrite searchRedditArchives_run. reflexivity.
  - rewrite searchDigitalLibraries_run. reflexivity.
  - rewrite searchGeneralWeb_run. reflexivity.
Qed.

Lemma fetched_denotation (f : Fetcher) :
  fetched platform this f = denotation platform this f.
Proof. unfold fetched. rewrite outcome_method. reflexivity. Qed.

Lemma searchMethods_fetchers :
  searchMethods platform this = map (method platform this) fetchers.
Proof. reflexivity. Qed.

Lemma Promise_all_resolved {A} (l : list A) :
  Promise_all (map inr l) = inr l.
Proof.
  induction l as [|a l IH]; simpl; [reflexivity|]. rewrite IH. reflexivity.
Qed.

Lemma searchAll_fetched :
  searchAll platform this =
  deduplicateResults (concat (map (fetched platform this) fetchers)).
Proof.
  unfold searchAll. rewrite searchMethods_fetchers, map_map.
  rewrite (map_ext _ (fun f => inr (fetched platform this f))).
  - rewrite <- (map_map (fetched platform this) inr).
    rewrite Promise_all_resolved. reflexivity.
  - intros f. rewrite outcome_method, fetched_denotation. reflexivity.
Qed.

End Runs.

(** ** What the records of a fetcher are *)

Lemma collect_elem_of {X} (step : X -> option (exn + SearchResult))
    (l : list X) (r : SearchResult) :
  r ∈ (collect step l).1 -> exists x, x ∈ l /\ step x = Some (inr r).
Proof.
  induction l as [|x l IH]; simpl.
  - intros H. inversion H.
  - destruct (step x) as [[e|r']|] eqn:E; simpl.
    + intros H. inversion H.
    + rewrite elem_of_cons. intros [->|H].
      * exists x. split; [left | exact E].
      * destruct (IH H) as (y & Hy & Hs). exists y. split; [right|]; auto.
    + intros H. destruct (IH H) as (y & Hy & Hs).
      exists y. split; [right|]; auto.
Qed.

Lemma collect_complete {X} (step : X -> option (exn + SearchResult))
    (l : list X) (x : X) (r : SearchResult) :
  (collect step l).2 = None -> x ∈ l -> step x = Some (inr r) ->
  r ∈ (collect step l).1.
Proof.
  induction l as [|y l IH]; simpl; intros Hn Hx Hs.
  - inversion Hx.
  - apply elem_of_cons in Hx as [<-|Hx].
    + rewrite Hs. left.
    + destruct (step y) as [[e|r']|]; simpl in *.
      * discriminate.
      * right. auto.
      * auto.
Qed.

Lemma elem_of_concat_map {U} (recs : U -> list SearchResult) (units : list U)
    (r : SearchResult) :
  r ∈ concat (map recs units) <-> exists u, u ∈ units /\ r ∈ recs u.
Proof.
  induction units as [|u units IH]; simpl.
  - split; [intros H; inversion H | intros (u & H & _); inversion H].
  - rewrite elem_of_app, IH. split.
    + intros [H|(v & Hv & H)].
      * exists u. split; [left | exact H].
      * exists v. split; [right|]; auto.
    + intros (v & Hv & H). apply elem_of_cons in Hv as [->|Hv].
      * left. exact H.
      * right. exists v. auto.
Qed.

Lemma isYearInRange_window (y : string) :
  isYearInRange y = true ->
  exists n, JS.parseInt y = Some n /\ 2000 <= n <= 2025.
Proof.
  unfold isYearInRange. destruct (JS.parseInt y) as [n|]; [|discriminate].
  rewrite andb_true_iff, !Z.leb_le. intros [H1 H2]. exists n. auto.
Qed.

Lemma extractYear_window (text : string) :
  extractYear text <> "Unknown" ->
  exists n, JS.parseInt (extractYear text) = Some n /\ 2000 <= n <= 2025.
Proof.
  intros H. destruct (extractYear_range text) as [E|E]; [contradiction|].
  apply isYearInRange_window, E.
Qed.

Section Records.

Context (platform : Platform) (this : ArchiveSearcher).

Lemma archive_fetched (r : SearchResult) :
  r ∈ fetched platform this ArchiveOrg <->
  exists data item,
    archive_request this = inr data /\ item ∈ archive_docs data /\
    verify this (ArchiveOrgResponse.title item) = true /\
    r = archiveOrg_result item.
Proof.
  rewrite fetched_denotation. simpl. unfold archive_records.
  destruct (archive_request this) as [e|data].
  - split; [intros H; inversion H | intros (d & i & [=] & _)].
  - split.
    + intros H. apply collect_elem_of in H as (item & Hi & Hs).
      exists data, item. unfold archive_step in Hs.
      destruct (verify this _) eqn:V; [|discriminate].
      injection Hs as <-. auto.
    + intros (d & item & [= <-] & Hi & V & ->).
      apply (collect_complete _ _ item); [| exact Hi |].
      * apply collect_no_throw, archive_step_no_throw.
      * unfold archive_step. rewrite V. reflexivity.
Qed.

Lemma books_fetched (r : SearchResult) :
  r ∈ fetched platform this GoogleBooks <->
  exists data item volumeInfo,
    books_request this = inr data /\
    item ∈ default [] (GoogleBooksResponse.items data) /\
    GoogleBooksResponse.volumeInfo item = Some volumeInfo /\
    GoogleBooksResponse.title volumeInfo = Some (title r) /\
    title r <> "" /\
    googleBooks_year volumeInfo <> "Unknown" /\
    verify this (title r) = true /\
    r = googleBooks_result volumeInfo (title r).
Proof.
  rewrite fetched_denotation. simpl. unfold books_records.
  destruct (books_request this) as [e|data].
  - split; [intros H; inversion H | intros (d & i & v & [=] & _)].
  - split.
    + intros H. apply collect_elem_of in H as (item & Hi & Hs).
      exists data, item. unfold books_step in Hs.
      destruct (GoogleBooksResponse.volumeInfo item) as [vi|];
        [|discriminate].
      simpl in Hs.
      destruct (GoogleBooksResponse.title vi) as [t|] eqn:T; [|discriminate].
      simpl in Hs. destruct (_ && _) eqn:C; [|discriminate].
      injection Hs as <-. simpl.
      rewrite !andb_true_iff, !negb_true_iff in C.
      destruct C as (F & U & V).
      exists vi. repeat split; auto.
      * intros E. apply falsy_empty in E. congruence.
      * intros E. apply String.eqb_neq in U. contradiction.
    + intros (d & item & vi & [= <-] & Hi & Hv & Ht & Hne & Hy & V & ->).
      apply (collect_complete _ _ item); [| exact Hi |].
      * apply collect_no_throw, books_step_no_throw.
      * unfold books_step. rewrite Hv. simpl. rewrite Ht. simpl.
        assert (JS.falsy (title r) = false) as ->.
        { destruct (JS.falsy (title r)) eqn:F; [|reflexivity].
          apply falsy_empty in F. contradiction. }
        apply String.eqb_neq in Hy. rewrite Hy, V. reflexivity.
Qed.

Lemma reddit_fetched (r : SearchResult) :
  r ∈ fetched platform this RedditArchives <->
  exists subreddit data post,
    subreddit ∈ subreddits /\ reddit_request this subreddit = inr data /\
    post ∈ reddit_children data /\
    verify this (RedditResponse.title (RedditResponse.data post)) = true /\
    r = reddit_result platform subreddit (RedditResponse.data post).
Proof.
  rewrite fetched_denotation. cbv [denotation]. rewrite elem_of_concat_map.
  unfold reddit_records. split.
  - intros (s & Hs & H). exists s.
    destruct (reddit_request this s) as [e|data]; [inversion H|].
    apply collect_elem_of in H as (post & Hp & Hstep).
    exists data, post. unfold reddit_step in Hstep.
    destruct (verify this _) eqn:V; [|discriminate].
    injection Hstep as <-. auto.
  - intros (s & data & post & Hs & Hr & Hp & V & ->).
    exists s. split; [exact Hs|]. rewrite Hr.
    apply (collect_complete _ _ post); [| exact Hp |].
    + apply collect_no_throw, reddit_step_no_throw.
    + unfold reddit_step. rewrite V. reflexivity.
Qed.

Lemma engine_fetched (r : SearchResult) :
  r ∈ fetched platform this GeneralWeb <->
  exists engine data element,
    engine ∈ searchEngines this /\ engine_request this engine = inr data /\
    element ∈ engine_elements platform engine data /\
    Cheerio.find_href element
      (SearchEngine.link (SearchEngine.selector engine)) = Some (url r) /\
    engine_title engine element <> "" /\ url r <> "" /\
    verify this (engine_title engine element) = true /\
    r = engine_result engine element (url r).
Proof.
  rewrite fetched_denotation. cbv [denotation]. rewrite elem_of_concat_map.
  unfold engine_records. split.
  - intros (g & Hg & H). exists g.
    destruct (engine_request this g) as [e|data]; [inversion H|].
    apply collect_elem_of in H as (el & Hel & Hstep).
    exists data, el. unfold engine_step in Hstep.
    destruct (Cheerio.find_href el _) as [href|]; [|discriminate].
    simpl in Hstep. destruct (_ && _) eqn:C; [|discriminate].
    injection Hstep as <-. simpl.
    rewrite !andb_true_iff, !negb_true_iff in C. destruct C as ((F & F') & V).
    repeat split; auto.
    + intros E. apply falsy_empty in E. congruence.
    + intros E. apply falsy_empty in E. congruence.
  - intros (g & data & el & Hg & Hr & Hel & Hh & Ht & Hu & V & ->).
    exists g. split; [exact Hg|]. rewrite Hr.
    apply (collect_complete _ _ el); [| exact Hel |].
    + apply collect_no_throw, engine_step_no_throw.
    + unfold engine_step. simpl in Hh. rewrite Hh. simpl.
      assert (forall s, s <> "" -> JS.falsy s = false) as NF.
      { intros s Hs. destruct (JS.falsy s) eqn:F; [|reflexivity].
        apply falsy_empty in F. contradiction. }
      simpl in Hu. rewrite (NF _ Ht), (NF _ Hu), V. reflexivity.
Qed.

Lemma library_fetched (r : SearchResult) :
  r ∈ fetched platform this DigitalLibraries ->
  exists library data element,
    library ∈ libraries this /\ library_request this library = inr data /\
    element ∈ library_elements platform library data /\
    library_accepts this library element = true /\
    library_link platform library element = inr (url r) /\
    r = library_result library element (url r).
Proof.
  rewrite fetched_denotation. cbv [denotation]. rewrite elem_of_concat_map.
  unfold library_records.
  intros (l & Hl & H). exists l.
  destruct (library_request this l) as [e|data]; [inversion H|].
  apply collect_elem_of in H as (el & Hel & Hstep).
  exists data, el. unfold library_step in Hstep.
  destruct (library_accepts this l el) eqn:A; [|discriminate].
  destruct (library_link platform l el) as [e|u] eqn:L; [discriminate|].
  injection Hstep as <-. simpl. repeat split; auto.
Qed.

(** On a page all of whose links resolve, every accepted element is
    emitted. *)
Lemma library_fetched_complete library data element resolved :
  library ∈ libraries this -> library_request this library = inr data ->
  library_threw platform this library = None ->
  element ∈ library_elements platform library data ->
  library_accepts this library element = true ->
  library_link platform library element = inr resolved ->
  library_result library element resolved
    ∈ fetched platform this DigitalLibraries.
Proof.
  intros Hl Hr Ht Hel Ha Hk.
  rewrite fetched_denotation. cbv [denotation]. apply elem_of_concat_map.
  exists library. split; [exact Hl|]. unfold library_records. rewrite Hr.
  apply (collect_complete _ _ element); [| exact Hel |].
  - rewrite library_collect_throw. unfold library_threw in Ht.
    rewrite Hr in Ht. exact Ht.
  - unfold library_step. rewrite Ha, Hk. reflexivity.
Qed.

End Records.

(** ** The end-to-end scenario of the text archive *)

(** C8 as worded fails: the record of the scenario does not carry the
    source [archive-catalog]. *)
Lemma scenario_source_not_archive_catalog :
  ~ exists r,
      outcome (searchArchiveOrg
                 (Sample.searcher (Sample.archive_only Sample.scenario_docs)))
      = inr [r] /\
      source r = "archive-catalog" /\
      ends_with "wm12" (url r) = true /\ year r = "2012".
Proof.
  intros (r & H & S & _). vm_compute in H. injection H as <-.
  discriminate S.
Qed.

(** C8, amended. When the text archive answers the two documents of the
    scenario and the target is [Widget Monthly], the fetcher returns exactly
    one record; its source is [archive.org], its url ends in [wm12] and its
    year is [2012]. *)
Theorem archive_scenario (this : ArchiveSearcher) :
  magazine_name this = "Widget Monthly" ->
  archive_request this = inr (Sample.archive_response Sample.scenario_docs) ->
  exists r,
    outcome (searchArchiveOrg this) = inr [r] /\
    source r = "archive.org" /\ title r = "Widget Monthly" /\
    ends_with "wm12" (url r) = true /\ year r = "2012".
Proof.
  intros Hname Hresp.
  exists (mkResult "archive.org" "Widget Monthly" "2012"
            "https://archive.org/details/wm12" "").
  split; [|repeat split].
  unfold outcome. rewrite searchArchiveOrg_run. cbn [snd]. f_equal.
  unfold archive_records. rewrite Hresp.
  unfold Sample.archive_response, archive_docs, Sample.scenario_docs.
  cbn [ArchiveOrgResponse.response ArchiveOrgResponse.docs mbind
       option_bind default collect].
  unfold archive_step, verify. rewrite Hname. vm_compute. reflexivity.
Qed.

Lemma archive_scenario_witness :
  exists r,
    outcome (searchArchiveOrg
               (Sample.searcher (Sample.archive_only Sample.scenario_docs)))
    = inr [r] /\
    source r = "archive.org" /\ title r = "Widget Monthly" /\
    ends_with "wm12" (url r) = true /\ year r = "2012".
Proof.
  apply archive_scenario; reflexivity.
Defined.

(** ** Years *)

(** C3 as worded fails: the text archive's fetcher passes the year of a
    document through, whatever it is. *)
Lemma archive_year_outside_window :
  exists r,
    r ∈ fetched Sample.platform
          (Sample.searcher (Sample.archive_only [Sample.old_issue]))
          ArchiveOrg /\
    year r <> "Unknown" /\ JS.parseInt (year r) = Some 1985.
Proof.
  exists (mkResult "archive.org" "Widget Monthly" "1985"
            "https://archive.org/details/wm85" "").
  split; [|split].
  - vm_compute. left.
  - discriminate.
  - reflexivity.
Qed.

(** The social fetcher prints the year of the time stamp, inside the
    window or not. *)
Example reddit_year_of_time_stamp :
  fetched Sample.platform (Sample.searcher Sample.reddit_only) RedditArchives
  = [ mkResult "reddit/r/magazines" "Widget Monthly, the last issue" "2026"
        "https://reddit.com/r/magazines/comments/abc/widget/" "" ].
Proof. vm_compute. reflexivity. Qed.

(** C3, amended. A record of one of the three fetchers that read the year
    with the year extractor (the book catalog, the digital libraries, the
    general web) has the year [Unknown] or a year of [2000, 2025]. The
    text archive's fetcher gives the year field of the document unchanged,
    [Unknown] when it is absent or empty; the social fetcher gives the
    calendar year of the post's time stamp. *)
Theorem extracted_years_in_window (platform : Platform)
    (this : ArchiveSearcher) :
  (forall f r,
     f = GoogleBooks \/ f = DigitalLibraries \/ f = GeneralWeb ->
     r ∈ fetched platform this f -> year r <> "Unknown" ->
     exists n, JS.parseInt (year r) = Some n /\ 2000 <= n <= 2025) /\
  (forall r,
     r ∈ fetched platform this ArchiveOrg ->
     exists data item,
       archive_request this = inr data /\ item ∈ archive_docs data /\
       year r = JS.or_else (ArchiveOrgResponse.year item) "Unknown") /\
  (forall r,
     r ∈ fetched platform this RedditArchives ->
     exists subreddit data post,
       reddit_request this subreddit = inr data /\
       post ∈ reddit_children data /\
       year r =
       JS.Number_toString
         (Date_getFullYear platform
            (RedditResponse.created_utc (RedditResponse.data post) * 1000))).
Proof.
  split; [|split].
  - intros f r [-> | [-> | ->]] Hr Hy.
    + apply books_fetched in Hr
        as (data & item & vi & _ & _ & _ & _ & _ & _ & _ & E).
      rewrite E in Hy |- *. apply extractYear_window, Hy.
    + apply library_fetched in Hr
        as (l & data & el & _ & _ & _ & _ & _ & E).
      rewrite E in Hy |- *. apply extractYear_window, Hy.
    + apply engine_fetched in Hr
        as (g & data & el & _ & _ & _ & _ & _ & _ & _ & E).
      rewrite E in Hy |- *. apply extractYear_window, Hy.
  - intros r Hr. apply archive_fetched in Hr
      as (data & item & Hd & Hi & _ & ->).
    exists data, item. auto.
  - intros r Hr. apply reddit_fetched in Hr
      as (s & data & post & _ & Hd & Hp & _ & ->).
    exists s, data, post. auto.
Qed.

Lemma extracted_years_in_window_witness :
  exists n, JS.parseInt "2012" = Some n /\ 2000 <= n <= 2025.
Proof.
  apply (proj1 (extracted_years_in_window Sample.platform
                  (Sample.searcher
                     (Sample.books_only [Sample.volume_without_link])))
           GoogleBooks
           (mkResult "google_books" "Widget Monthly" "2012" "" "")).
  - left. reflexivity.
  - vm_compute. left.
  - discriminate.
Defined.

(** ** Urls *)

(** C4 as worded fails: a volume without a preview link is emitted with
    the empty string as its url. *)
Lemma books_url_may_be_empty :
  exists r,
    r ∈ fetched Sample.platform
          (Sample.searcher (Sample.books_only [Sample.volume_without_link]))
          GoogleBooks /\
    url r = "" /\ is_absolute_url (url r) = false.
Proof.
  exists (mkResult "google_books" "Widget Monthly" "2012" "" "").
  split; [|split].
  - vm_compute. left.
  - reflexivity.
  - reflexivity.
Qed.

(** C4, amended. The url of a record of the text archive's fetcher, of the
    social fetcher and of the digital-library fetcher is absolute. The
    first is [https://archive.org/details/] followed by the identifier of
    a document of the response, the second [https://reddit.com] followed
    by the permalink of a post of the response; the third is what the URL
    constructor answers for the link of an accepted element of the page,
    resolved against the address of the library (a URL constructor answers
    absolute URLs only). The book catalog's fetcher gives the preview link
    of the item unchanged, and the empty string when the item has none. *)
Theorem resolved_urls_are_absolute (platform : Platform)
    (this : ArchiveSearcher) :
  (forall href base resolved,
     URL_toString platform href base = inr resolved ->
     is_absolute_url resolved = true) ->
  (forall f r,
     f = ArchiveOrg \/ f = RedditArchives \/ f = DigitalLibraries ->
     r ∈ fetched platform this f -> is_absolute_url (url r) = true) /\
  (forall r,
     r ∈ fetched platform this ArchiveOrg ->
     exists data item,
       archive_request this = inr data /\ item ∈ archive_docs data /\
       r = archiveOrg_result item /\
       url r =
       "https://archive.org/details/"
       +:+ ArchiveOrgResponse.identifier item) /\
  (forall r,
     r ∈ fetched platform this RedditArchives ->
     exists subreddit data post,
       subreddit ∈ subreddits /\
       reddit_request this subreddit = inr data /\
       post ∈ reddit_children data /\
       r = reddit_result platform subreddit (RedditResponse.data post) /\
       url r =
       "https://reddit.com"
       +:+ RedditResponse.permalink (RedditResponse.data post)) /\
  (forall r,
     r ∈ fetched platform this DigitalLibraries ->
     exists library data element,
       library ∈ libraries this /\
       library_request this library = inr data /\
       element ∈ library_elements platform library data /\
       library_accepts this library element = true /\
       URL_toString platform
         (match Cheerio.find_href element
                  (DigitalLibrary.link (DigitalLibrary.selector library))
          with
          | Some href => href
          | None => ""
          end)
         (DigitalLibrary.url library) = inr (url r) /\
       r = library_result library element (url r)) /\
  (forall r,
     r ∈ fetched platform this GoogleBooks ->
     exists data item volumeInfo,
       books_request this = inr data /\
       item ∈ default [] (GoogleBooksResponse.items data) /\
       GoogleBooksResponse.volumeInfo item = Some volumeInfo /\
       r = googleBooks_result volumeInfo (title r) /\
       url r =
       match GoogleBooksResponse.previewLink volumeInfo with
       | Some link => link
       | None => ""
       end).
Proof.
  intros Habs. split; [|split; [|split; [|split]]].
  - intros f r [-> | [-> | ->]] Hr.
    + apply archive_fetched in Hr as (data & item & _ & _ & _ & ->).
      reflexivity.
    + apply reddit_fetched in Hr as (s & data & post & _ & _ & _ & _ & ->).
      reflexivity.
    + apply library_fetched in Hr as (l & data & el & _ & _ & _ & _ & L & _).
      apply (Habs _ _ _ L).
  - intros r Hr.
    apply archive_fetched in Hr as (data & item & Hd & Hi & _ & ->).
    exists data, item. auto.
  - intros r Hr.
    apply reddit_fetched in Hr as (s & data & post & Hs & Hd & Hp & _ & ->).
    exists s, data, post. auto.
  - intros r Hr.
    apply library_fetched in Hr as (l & data & el & Hl & Hd & Hel & Ha & L & E).
    exists l, data, el. repeat split; auto.
    unfold library_link, JS.or_else in L.
    destruct (Cheerio.find_href el _) as [href|]; [|exact L].
    destruct (JS.falsy href) eqn:F; [|exact L].
    apply falsy_empty in F. subst href. exact L.
  - intros r Hr.
    apply books_fetched in Hr
      as (data & item & vi & Hd & Hi & Hv & _ & _ & _ & _ & E).
    exists data, item, vi. repeat split; auto.
    rewrite E at 1. cbn [url googleBooks_result]. unfold JS.or_else.
    destruct (GoogleBooksResponse.previewLink vi) as [link|]; [|reflexivity].
    destruct (JS.falsy link) eqn:F; [|reflexivity].
    apply falsy_empty in F. subst link. reflexivity.
Qed.

Lemma URL_table_absolute href base resolved :
  Sample.URL_table href base = inr resolved ->
  is_absolute_url resolved = true.
Proof.
  unfold Sample.URL_table. destruct (_ && _); [|discriminate].
  intros [= <-]. reflexivity.
Qed.

Lemma resolved_urls_are_absolute_witness :
  is_absolute_url "https://babel.hathitrust.org/Record/100" = true.
Proof.
  apply (proj1 (resolved_urls_are_absolute Sample.platform
                  (Sample.searcher Sample.library_only)
                  URL_table_absolute)
           DigitalLibraries
           (mkResult "HathiTrust" "Widget Monthly" "2012"
              "https://babel.hathitrust.org/Record/100" "")).
  - right. right. reflexivity.
  - vm_compute. left.
Defined.

(** ** The book catalog *)

Lemma Number_toString_not_Unknown (n : JS.number) :
  JS.Number_toString n <> "Unknown".
Proof.
  destruct n as [z|]; [|discriminate]. unfold JS.Number_toString.
  destruct (Z.to_int z) as [u|u]; destruct u; discriminate.
Qed.

(** C7 as worded fails in its comparison: the other fetchers do not all
    tag a record whose year does not resolve to the window with [Unknown].
    The social fetcher prints the year of the time stamp, [2026] for a
    post of March 2026 and [NaN] for a time stamp beyond the range of
    dates; the text archive's fetcher passes the year field through. *)
Lemma other_fetchers_keep_the_year_they_read :
  (exists r,
     r ∈ fetched Sample.platform (Sample.searcher Sample.reddit_only)
           RedditArchives /\
     year r = "2026" /\ isYearInRange (year r) = false /\
     year r <> "Unknown") /\
  (exists r,
     r ∈ fetched Sample.platform
           (Sample.searcher (reddit_answering [undatable_post]))
           RedditArchives /\
     year r = "NaN" /\ isYearInRange (year r) = false /\
     year r <> "Unknown") /\
  (exists r,
     r ∈ fetched Sample.platform
           (Sample.searcher (Sample.archive_only [Sample.old_issue]))
           ArchiveOrg /\
     year r = "1985" /\ isYearInRange (year r) = false /\
     year r <> "Unknown").
Proof.
  split; [|split].
  - exists (mkResult "reddit/r/magazines" "Widget Monthly, the last issue"
              "2026" "https://reddit.com/r/magazines/comments/abc/widget/"
              "").
    split; [vm_compute; left|]. repeat split. discriminate.
  - exists (mkResult "reddit/r/magazines" "Widget Monthly scans" "NaN"
              "https://reddit.com/r/magazines/comments/xyz/scans/" "").
    split; [vm_compute; left|]. repeat split. discriminate.
  - exists (mkResult "archive.org" "Widget Monthly" "1985"
              "https://archive.org/details/wm85" "").
    split; [vm_compute; left|]. repeat split. discriminate.
Qed.

(** C7, amended. The book catalog's fetcher emits a record exactly for the
    items with a non-empty title that passes identity verification and a
    published date from which a year of the window is extracted; so none
    of its records has the year [Unknown]. No other fetcher drops a record
    for its year. The text archive's fetcher emits exactly the documents
    with a verified title, with the year field unchanged, and [Unknown]
    when that field is absent or empty. The social fetcher emits exactly
    the posts with a verified title, with the printed year of the time
    stamp, which is never [Unknown]. The general-web fetcher emits exactly
    the elements with a verified title and a link, and the digital-library
    fetcher the accepted elements of a page all of whose links resolve,
    both with whatever the year extractor answers, [Unknown] included. *)
Theorem books_drop_undated_records (platform : Platform)
    (this : ArchiveSearcher) :
  (forall r,
     r ∈ fetched platform this GoogleBooks <->
     exists data item volumeInfo,
       books_request this = inr data /\
       item ∈ default [] (GoogleBooksResponse.items data) /\
       GoogleBooksResponse.volumeInfo item = Some volumeInfo /\
       GoogleBooksResponse.title volumeInfo = Some (title r) /\
       title r <> "" /\
       extractYear
         (JS.or_else (GoogleBooksResponse.publishedDate volumeInfo) "")
       <> "Unknown" /\
       verify this (title r) = true /\
       r = googleBooks_result volumeInfo (title r)) /\
  (forall r,
     r ∈ fetched platform this GoogleBooks ->
     year r <> "Unknown" /\ isYearInRange (year r) = true /\
     verify this (title r) = true) /\
  (forall r,
     r ∈ fetched platform this ArchiveOrg <->
     exists data item,
       archive_request this = inr data /\ item ∈ archive_docs data /\
       verify this (ArchiveOrgResponse.title item) = true /\
       r = archiveOrg_result item) /\
  (forall item,
     year (archiveOrg_result item) =
     match ArchiveOrgResponse.year item with
     | Some y => if String.eqb y "" then "Unknown" else y
     | None => "Unknown"
     end) /\
  (forall r,
     r ∈ fetched platform this RedditArchives <->
     exists subreddit data post,
       subreddit ∈ subreddits /\
       reddit_request this subreddit = inr data /\
       post ∈ reddit_children data /\
       verify this (RedditResponse.title (RedditResponse.data post)) = true /\
       r = reddit_result platform subreddit (RedditResponse.data post)) /\
  (forall subreddit postData,
     year (reddit_result platform subreddit postData) =
     JS.Number_toString
       (Date_getFullYear platform
          (RedditResponse.created_utc postData * 1000)) /\
     year (reddit_result platform subreddit postData) <> "Unknown") /\
  (forall r,
     r ∈ fetched platform this GeneralWeb <->
     exists engine data element,
       engine ∈ searchEngines this /\
       engine_request this engine = inr data /\
       element ∈ engine_elements platform engine data /\
       Cheerio.find_href element
         (SearchEngine.link (SearchEngine.selector engine)) = Some (url r) /\
       engine_title engine element <> "" /\ url r <> "" /\
       verify this (engine_title engine element) = true /\
       r = engine_result engine element (url r)) /\
  (forall engine element href,
     year (engine_result engine element href) =
     extractYear (engine_title engine element +:+ " "
                  +:+ engine_description engine element)) /\
  (forall r,
     r ∈ fetched platform this DigitalLibraries ->
     exists library data element,
       library ∈ libraries this /\
       library_request this library = inr data /\
       element ∈ library_elements platform library data /\
       library_accepts this library element = true /\
       library_link platform library element = inr (url r) /\
       r = library_result library element (url r)) /\
  (forall library data element resolved,
     library ∈ libraries this -> library_request this library = inr data ->
     library_threw platform this library = None ->
     element ∈ library_elements platform library data ->
     library_accepts this library element = true ->
     library_link platform library element = inr resolved ->
     library_result library element resolved
       ∈ fetched platform this DigitalLibraries /\
     year (library_result library element resolved) =
     extractYear (Cheerio.text element)).
Proof.
  split; [exact (books_fetched platform this)|].
  split; [|split; [exact (archive_fetched platform this)|]].
  { intros r Hr. apply books_fetched in Hr
      as (data & item & vi & _ & _ & _ & _ & _ & Hy & V & E).
    rewrite E at 1 2. cbn [year googleBooks_result].
    split; [exact Hy|]. split; [|exact V].
    destruct (extractYear_range
                (JS.or_else (GoogleBooksResponse.publishedDate vi) ""))
      as [U|R]; [contradiction | exact R]. }
  split; [reflexivity|].
  split; [exact (reddit_fetched platform this)|].
  split.
  { intros s postData. split; [reflexivity|].
    cbn [year reddit_result]. apply Number_toString_not_Unknown. }
  split; [exact (engine_fetched platform this)|].
  split; [reflexivity|].
  split; [exact (library_fetched platform this)|].
  intros l data el u Hl Hd Ht Hel Ha Hk. split; [|reflexivity].
  eapply library_fetched_complete; eauto.
Qed.

Lemma books_drop_undated_records_witness :
  "2012" <> "Unknown" /\ isYearInRange "2012" = true /\
  verifyMagazineIdentity "Widget Monthly" "Widget Monthly" = true.
Proof.
  apply (proj1 (proj2 (books_drop_undated_records Sample.platform
                         (Sample.searcher
                            (Sample.books_only
                               [Sample.volume_without_link]))))
           (mkResult "google_books" "Widget Monthly" "2012" "" "")).
  vm_compute. left.
Defined.

(** ** Failures *)

Lemma concat_map_nil {U} (recs : U -> list SearchResult) (units : list U) :
  Forall (fun u => recs u = []) units -> concat (map recs units) = [].
Proof.
  induction 1 as [|u units Hu _ IH]; simpl; [reflexivity|].
  rewrite Hu, IH. reflexivity.
Qed.

Lemma concat_map_without {U} `{EqDecision U} (recs : U -> list SearchResult)
    (u : U) (units : list U) :
  recs u = [] ->
  concat (map recs units) = concat (map recs (filter (fun v => v <> u) units)).
Proof.
  intros Hu. induction units as [|v units IH]; simpl; [reflexivity|].
  rewrite filter_cons. destruct (decide (v <> u)) as [Hv|Hv]; simpl.
  - rewrite IH. reflexivity.
  - apply dec_stable in Hv. subst v. rewrite Hu. exact IH.
Qed.

Section Failures.

Context (platform : Platform) (this : ArchiveSearcher).

Lemma reddit_records_failed subreddit :
  failed (reddit_request this subreddit) ->
  reddit_records platform this subreddit = [].
Proof.
  unfold reddit_records. destruct (reddit_request this subreddit);
    [reflexivity | intros []].
Qed.

Lemma library_records_failed library :
  failed (library_request this library) ->
  library_records platform this library = [].
Proof.
  unfold library_records. destruct (library_request this library);
    [reflexivity | intros []].
Qed.

Lemma engine_records_failed engine :
  failed (engine_request this engine) ->
  engine_records platform this engine = [].
Proof.
  unfold engine_records. destruct (engine_request this engine);
    [reflexivity | intros []].
Qed.

Lemma all_requests_fail_fetched (f : Fetcher) :
  all_requests_fail this f -> fetched platform this f = [].
Proof.
  rewrite fetched_denotation. destruct f; cbv [denotation all_requests_fail].
  - unfold archive_records. destruct (archive_request this);
      [reflexivity | intros []].
  - unfold books_records. destruct (books_request this);
      [reflexivity | intros []].
  - intros H. apply concat_map_nil. eapply Forall_impl; [exact H|].
    apply reddit_records_failed.
  - intros H. apply concat_map_nil. eapply Forall_impl; [exact H|].
    apply library_records_failed.
  - intros H. apply concat_map_nil. eapply Forall_impl; [exact H|].
    apply engine_records_failed.
Qed.

End Failures.

(** C1 as worded fails for a unit that throws after it has pushed: on the
    sample page of the first library the second link does not parse, the
    unit's [try] block throws, and the record pushed for the first element
    stays in the results of the fetcher. *)
Lemma failed_unit_keeps_its_records :
  exists library e st r,
    library ∈ libraries (Sample.searcher Sample.library_only) /\
    library_body Sample.platform (Sample.searcher Sample.library_only)
      library empty_store = (st, inl e) /\
    results
      (library_unit Sample.platform (Sample.searcher Sample.library_only)
         library empty_store).1 = [r] /\
    outcome
      (searchDigitalLibraries Sample.platform
         (Sample.searcher Sample.library_only)) = inr [r].
Proof.
  eexists _, _, _, _. split; [left|].
  split; [vm_compute; reflexivity|].
  split; vm_compute; reflexivity.
Qed.

(** C1, amended. No fetcher throws outward: each returns a sequence of
    records. Every failure is caught at the boundary of its unit: a unit
    of the three looping fetchers always returns normally and adds to the
    results what it pushed before it stopped, which is nothing when its
    request failed; the two catalog fetchers return the empty sequence
    when their request fails. So when every request of one fetcher fails,
    that fetcher contributes nothing and [searchAll] returns the
    deduplicated results of the other four. *)
Theorem failures_stay_in_their_unit (platform : Platform)
    (this : ArchiveSearcher) :
  (forall f, exists rs, outcome (method platform this f) = inr rs) /\
  (forall subreddit st,
     exists st',
       reddit_unit platform this subreddit st = (st', inr tt) /\
       results st' = results st ++ reddit_records platform this subreddit /\
       (failed (reddit_request this subreddit) -> results st' = results st))
  /\
  (forall library st,
     exists st',
       library_unit platform this library st = (st', inr tt) /\
       results st' = results st ++ library_records platform this library /\
       (failed (library_request this library) -> results st' = results st))
  /\
  (forall engine st,
     exists st',
       engine_unit platform this engine st = (st', inr tt) /\
       results st' = results st ++ engine_records platform this engine /\
       (failed (engine_request this engine) -> results st' = results st))
  /\
  (forall f,
     all_requests_fail this f ->
     fetched platform this f = [] /\
     searchAll platform this =
     deduplicateResults
       (concat (map (fetched platform this)
                    (filter (fun g => g <> f) fetchers)))).
Proof.
  split; [|split; [|split; [|split]]].
  - intros f. eexists. apply outcome_method.
  - intros s st. eexists. split; [apply reddit_unit_run|].
    split; [reflexivity|]. intros F. cbn [results].
    rewrite (reddit_records_failed platform this s F). apply app_nil_r.
  - intros l st. eexists. split; [apply library_unit_run|].
    split; [reflexivity|]. intros F. cbn [results].
    rewrite (library_records_failed platform this l F). apply app_nil_r.
  - intros g st. eexists. split; [apply engine_unit_run|].
    split; [reflexivity|]. intros F. cbn [results].
    rewrite (engine_records_failed platform this g F). apply app_nil_r.
  - intros f Hf.
    pose proof (all_requests_fail_fetched platform this f Hf) as E.
    split; [exact E|]. rewrite searchAll_fetched.
    f_equal. apply concat_map_without, E.
Qed.

Lemma failures_stay_in_their_unit_witness :
  fetched Sample.platform (Sample.searcher Sample.library_only) ArchiveOrg
  = [] /\
  searchAll Sample.platform (Sample.searcher Sample.library_only) =
  deduplicateResults
    (concat
       (map (fetched Sample.platform (Sample.searcher Sample.library_only))
          (filter (fun g => g <> ArchiveOrg) fetchers))).
Proof.
  apply (proj2 (proj2 (proj2 (proj2
           (failures_stay_in_their_unit Sample.platform
              (Sample.searcher Sample.library_only)))))).
  simpl. exact I.
Defined.

(** ** Pacing *)

(** C9 as worded fails: when the requests fail no delay is executed at
    all, the loop goes straight on to the next request. *)
Lemma no_delay_after_a_failed_request :
  paced 2000
    (events (searchRedditArchives Sample.platform
               (Sample.searcher Sample.offline))) = false /\
  Forall (fun ev => forall ms, ev <> EvDelay ms)
    (events (searchRedditArchives Sample.platform
               (Sample.searcher Sample.offline))).
Proof.
  split; [vm_compute; reflexivity|].
  vm_compute. repeat constructor; discriminate.
Qed.

(** C9, amended. In the social, digital-library and general-web fetchers
    the units run one after the other, in the order of the list; each unit
    issues one request, and what follows it before the next request is the
    fixed delay (2000, 2000 and 3000 ms) when the unit ran to its end, and
    the logged error, with no delay, when the unit threw. *)
Theorem units_run_in_sequence (platform : Platform) (this : ArchiveSearcher) :
  events (searchRedditArchives platform this) =
    sequential_trace (reddit_get this) (reddit_after this) subreddits /\
  events (searchDigitalLibraries platform this) =
    sequential_trace library_get (library_after platform this)
      (libraries this) /\
  events (searchGeneralWeb platform this) =
    sequential_trace engine_get (engine_after this) (searchEngines this) /\
  (forall subreddit,
     match reddit_request this subreddit with
     | inr _ => reddit_after this subreddit = EvDelay 2000
     | inl e => exists msg, reddit_after this subreddit = EvError msg e
     end) /\
  (forall library,
     match library_threw platform this library with
     | None => library_after platform this library = EvDelay 2000
     | Some e =>
         exists msg, library_after platform this library = EvError msg e
     end) /\
  (forall engine,
     match engine_request this engine with
     | inr _ => engine_after this engine = EvDelay 3000
     | inl e => exists msg, engine_after this engine = EvError msg e
     end).
Proof.
  unfold events.
  rewrite searchRedditArchives_run, searchDigitalLibraries_run,
    searchGeneralWeb_run.
  repeat split.
  - intros s. unfold reddit_after. destruct (reddit_request this s);
      [eexists|]; reflexivity.
  - intros l. unfold library_after.
    destruct (library_threw platform this l); [eexists|]; reflexivity.
  - intros g. unfold engine_after. destruct (engine_request this g);
      [eexists|]; reflexivity.
Qed.

(** * Further properties *)

(** ** Deduplication, continued *)

Lemma deduplicate_filter_fresh (l : list SearchResult) :
  forall (seen : gset string) (r : SearchResult),
  r ∈ deduplicate_filter seen l -> (url r ∉ seen) /\ r ∈ l.
Proof.
  induction l as [|x l IH]; intros seen r; simpl.
  - intros H. inversion H.
  - destruct (decide (url x ∈ seen)) as [Hx|Hx].
    + intros H. destruct (IH _ _ H). split; [assumption | right; assumption].
    + rewrite elem_of_cons. intros [->|H].
      * split; [exact Hx | left].
      * destruct (IH _ _ H) as [Hn Hin]. split; [|right; exact Hin].
        intros Hs. apply Hn. apply elem_of_union. right. exact Hs.
Qed.

Lemma deduplicate_filter_NoDup (l : list SearchResult) :
  forall seen : gset string, NoDup (map url (deduplicate_filter seen l)).
Proof.
  induction l as [|x l IH]; intros seen; simpl.
  - constructor.
  - destruct (decide (url x ∈ seen)) as [Hx|Hx]; [apply IH|].
    simpl. constructor; [|apply IH].
    intros Hin. apply (list_elem_of_fmap_1 url) in Hin as (r & E & Hr).
    apply deduplicate_filter_fresh in Hr as [Hn _]. apply Hn.
    apply elem_of_union. left. apply elem_of_singleton. symmetry. exact E.
Qed.

Lemma deduplicate_filter_urls (l : list SearchResult) :
  forall (seen : gset string) (u : string),
  u ∈ map url (deduplicate_filter seen l) <-> (u ∉ seen) /\ u ∈ map url l.
Proof.
  induction l as [|x l IH]; intros seen u; simpl.
  - split; [intros H; inversion H | intros [_ H]; inversion H].
  - destruct (decide (url x ∈ seen)) as [Hx|Hx]; simpl;
      rewrite ?elem_of_cons, IH, ?elem_of_union, ?elem_of_singleton.
    + intuition congruence.
    + destruct (decide (u = url x)); intuition congruence.
Qed.

Lemma deduplicate_filter_distinct (l : list SearchResult) :
  forall seen : gset string,
  NoDup (map url l) -> (forall r, r ∈ l -> url r ∉ seen) ->
  deduplicate_filter seen l = l.
Proof.
  induction l as [|x l IH]; intros seen Hnd Hfresh; simpl; [reflexivity|].
  apply NoDup_cons in Hnd as [Hx Hnd].
  destruct (decide (url x ∈ seen)) as [Hin|_].
  - exfalso. apply (Hfresh x); [left | exact Hin].
  - f_equal. apply IH; [exact Hnd|].
    intros r Hr. rewrite elem_of_union, elem_of_singleton.
    intros [E|Hs].
    + apply Hx. rewrite <- E. apply (list_elem_of_fmap_2 url). exact Hr.
    + apply (Hfresh r); [right; exact Hr | exact Hs].
Qed.

(** X1. Deduplicating twice is deduplicating once. *)
Theorem deduplicate_idempotent (l : list SearchResult) :
  deduplicateResults (deduplicateResults l) = deduplicateResults l.
Proof.
  unfold deduplicateResults. apply deduplicate_filter_distinct.
  - apply deduplicate_filter_NoDup.
  - intros r _. apply not_elem_of_empty.
Qed.

(** X2. The urls of the output are pairwise distinct and are the urls of
    the input: no url is lost, none is invented. *)
Theorem deduplicate_urls (l : list SearchResult) :
  NoDup (map url (deduplicateResults l)) /\
  (forall u, u ∈ map url (deduplicateResults l) <-> u ∈ map url l).
Proof.
  unfold deduplicateResults. split; [apply deduplicate_filter_NoDup|].
  intros u. rewrite deduplicate_filter_urls. split; [tauto|].
  intros H. split; [apply not_elem_of_empty | exact H].
Qed.

(** X3. Deduplication leaves a list unchanged exactly when its urls are
    already pairwise distinct. *)
Theorem deduplicate_fixed_point (l : list SearchResult) :
  deduplicateResults l = l <-> NoDup (map url l).
Proof.
  split.
  - intros E. rewrite <- E. apply deduplicate_filter_NoDup.
  - intros H. apply deduplicate_filter_distinct; [exact H|].
    intros r _. apply not_elem_of_empty.
Qed.

Ltac gset_eq :=
  apply set_eq; intros ?;
  rewrite ?elem_of_union, ?elem_of_singleton, ?elem_of_empty;
  intuition congruence.

Lemma deduplicate_filter_union (l : list SearchResult) :
  forall s1 s2 : gset string,
  deduplicate_filter (s1 ∪ s2) l =
  filter (fun r => url r ∉ s1) (deduplicate_filter s2 l).
Proof.
  induction l as [|x l IH]; intros s1 s2; simpl; [reflexivity|].
  destruct (decide (url x ∈ s2)) as [H2|H2].
  - destruct (decide (url x ∈ s1 ∪ s2)) as [_|H]; [apply IH|].
    exfalso. apply H, elem_of_union. right. exact H2.
  - rewrite filter_cons. destruct (decide (url x ∉ s1)) as [H1|H1].
    + destruct (decide (url x ∈ s1 ∪ s2)) as [H|_].
      * exfalso. apply elem_of_union in H as [H|H]; contradiction.
      * f_equal. rewrite <- IH. f_equal. gset_eq.
    + apply dec_stable in H1.
      destruct (decide (url x ∈ s1 ∪ s2)) as [_|H].
      * rewrite <- IH. f_equal. gset_eq.
      * exfalso. apply H, elem_of_union. left. exact H1.
Qed.

Lemma deduplicate_filter_app (l1 l2 : list SearchResult) :
  forall seen : gset string,
  deduplicate_filter seen (l1 ++ l2) =
  deduplicate_filter seen l1 ++
  deduplicate_filter (list_to_set (map url l1) ∪ seen) l2.
Proof.
  induction l1 as [|x l1 IH]; intros seen; simpl.
  - f_equal. gset_eq.
  - destruct (decide (url x ∈ seen)) as [Hx|Hx].
    + rewrite IH. f_equal. f_equal. gset_eq.
    + simpl. f_equal. rewrite IH. f_equal. f_equal. gset_eq.
Qed.

Lemma elem_of_urls_set (l : list SearchResult) (u : string) :
  u ∈ (list_to_set (map url l) : gset string) <-> u ∈ map url l.
Proof. apply elem_of_list_to_set. Qed.

(** X4. Deduplicating a concatenation: the first part is deduplicated on
    its own, and of the second part the records are kept whose url is new
    to it and does not occur in the first part. So a record is never
    dropped in favour of a later one. *)
Theorem deduplicate_app (l1 l2 : list SearchResult) :
  deduplicateResults (l1 ++ l2) =
  deduplicateResults l1 ++
  filter (fun r => url r ∉ map url l1) (deduplicateResults l2).
Proof.
  unfold deduplicateResults. rewrite deduplicate_filter_app.
  f_equal. rewrite deduplicate_filter_union.
  apply list_filter_iff. intros r. rewrite elem_of_urls_set. reflexivity.
Qed.

(** ** Identity verification, continued *)

Lemma append_cons (c : ascii) (a b : string) :
  String c a +:+ b = String c (a +:+ b).
Proof. reflexivity. Qed.

Lemma append_nil_r (a : string) : a +:+ "" = a.
Proof.
  induction a as [|c a IH]; [reflexivity|].
  rewrite append_cons, IH. reflexivity.
Qed.

Lemma append_assoc (a b c : string) : (a +:+ b) +:+ c = a +:+ (b +:+ c).
Proof.
  induction a as [|x a IH]; [reflexivity|].
  rewrite !append_cons, IH. reflexivity.
Qed.

Lemma append_empty (a b : string) : a +:+ b = "" -> a = "" /\ b = "".
Proof. destruct a; [auto | discriminate]. Qed.

Lemma map_chars_app f (a b : string) :
  JS.map_chars f (a +:+ b) = JS.map_chars f a +:+ JS.map_chars f b.
Proof.
  induction a as [|c a IH]; [reflexivity|].
  rewrite append_cons. cbn [JS.map_chars]. rewrite append_cons, IH.
  reflexivity.
Qed.

Lemma filter_chars_app keep (a b : string) :
  JS.filter_chars keep (a +:+ b) =
  JS.filter_chars keep a +:+ JS.filter_chars keep b.
Proof.
  induction a as [|c a IH]; [reflexivity|].
  rewrite append_cons. cbn [JS.filter_chars].
  destruct (keep c); rewrite ?append_cons, IH; reflexivity.
Qed.

Lemma clean_app (a b : string) : clean (a +:+ b) = clean a +:+ clean b.
Proof.
  unfold clean, JS.strip_punctuation, JS.toLowerCase.
  rewrite map_chars_app, filter_chars_app. reflexivity.
Qed.

Lemma Substring_trans (a b c : string) :
  Substring a b -> Substring b c -> Substring a c.
Proof.
  intros (p1 & q1 & ->) (p2 & q2 & ->).
  exists (p2 +:+ p1), (q1 +:+ q2). rewrite !append_assoc. reflexivity.
Qed.

Lemma Substring_refl (a : string) : Substring a a.
Proof. exists "", "". simpl. rewrite append_nil_r. reflexivity. Qed.

Lemma verify_Substring (target candidate : string) :
  verifyMagazineIdentity target candidate = true <->
  candidate <> "" /\ Substring (clean target) (clean candidate).
Proof.
  rewrite verify_iff. split; intros [Hne H]; (split; [exact Hne|]).
  - destruct H as [->|H]; [apply Substring_refl | exact H].
  - right. exact H.
Qed.

(** X5. A candidate that is accepted stays accepted when text is added
    before and after it. *)
Theorem verify_extension (target candidate before after : string) :
  verifyMagazineIdentity target candidate = true ->
  verifyMagazineIdentity target (before +:+ candidate +:+ after) = true.
Proof.
  rewrite !verify_Substring. intros [Hne H]. split.
  - intros E. apply append_empty in E as [_ E].
    apply append_empty in E as [E _]. contradiction.
  - eapply Substring_trans; [exact H|].
    exists (clean before), (clean after). rewrite !clean_app. reflexivity.
Qed.

Lemma verify_extension_witness :
  verifyMagazineIdentity "Widget Monthly"
    ("The " +:+ "Widget Monthly" +:+ ", issue 12") = true.
Proof. apply verify_extension. reflexivity. Defined.

(** X6. Verification is transitive: when [b] is accepted for the target
    [a] and [c] is accepted for the target [b], then [c] is accepted for
    the target [a]. *)
Theorem verify_transitive (a b c : string) :
  verifyMagazineIdentity a b = true -> verifyMagazineIdentity b c = true ->
  verifyMagazineIdentity a c = true.
Proof.
  rewrite !verify_Substring. intros [_ Hab] [Hc Hbc].
  split; [exact Hc | exact (Substring_trans _ _ _ Hab Hbc)].
Qed.

Lemma verify_transitive_witness :
  verifyMagazineIdentity "Widget" "Widget Monthly, issue 12" = true.
Proof.
  apply (verify_transitive "Widget" "Widget Monthly"
           "Widget Monthly, issue 12"); reflexivity.
Defined.

(** X7. On strings of code units U+0000..U+00FF: a character whose
    lower-case form is neither a word character nor white space can be put
    into or taken out of the candidate without changing the verdict, as
    long as the candidate does not become empty. Removing it may join two
    words: [Widget-Monthly] is read as [widgetmonthly] and is not accepted
    for [Widget Monthly]. *)
Theorem verify_ignores_punctuation (target a b : string) (p : ascii) :
  (JS.re_word (JS.lower_char p) || JS.re_space (JS.lower_char p)) = false ->
  a +:+ b <> "" ->
  verifyMagazineIdentity target (a +:+ String p b) =
  verifyMagazineIdentity target (a +:+ b).
Proof.
  intros Hp Hne.
  assert (clean (a +:+ String p b) = clean (a +:+ b)) as E.
  { rewrite !clean_app. f_equal.
    unfold clean, JS.strip_punctuation, JS.toLowerCase.
    cbn [JS.map_chars JS.filter_chars]. rewrite Hp. reflexivity. }
  unfold verifyMagazineIdentity. rewrite E.
  assert (JS.falsy (a +:+ String p b) = false) as ->.
  { destruct a; reflexivity. }
  assert (JS.falsy (a +:+ b) = false) as ->.
  { destruct (JS.falsy (a +:+ b)) eqn:F; [|reflexivity].
    apply falsy_empty in F. contradiction. }
  reflexivity.
Qed.

Lemma verify_ignores_punctuation_witness :
  verifyMagazineIdentity "Widget Monthly" ("Widget" +:+ ": Monthly") =
  verifyMagazineIdentity "Widget Monthly" ("Widget" +:+ " Monthly") /\
  verifyMagazineIdentity "Widget Monthly" "Widget-Monthly" = false.
Proof.
  split; [|reflexivity].
  apply (verify_ignores_punctuation "Widget Monthly" "Widget" " Monthly" ":").
  - reflexivity.
  - discriminate.
Defined.

(** ** The year extractor, continued *)

Lemma window_20xx_table :
  forallb (fun a => forallb (fun b => forallb (fun c =>
    forallb (fun d => window_20xx_ok a b c d) digits) digits) digits) digits
  = true.
Proof. vm_compute. reflexivity. Qed.

Lemma window_is_20xx (a b c d : ascii) :
  JS.pattern_digits JS.Pat4 a b c d = true ->
  year_in_window (four a b c d) = true ->
  JS.pattern_digits JS.Pat20xx a b c d = true.
Proof.
  intros Hp Hw. pose proof Hp as Hp'.
  apply pattern_digits_all in Hp' as (Ha & Hb & Hc & Hd).
  pose proof window_20xx_table as T.
  rewrite forallb_forall in T.
  specialize (T a (re_digit_cases a Ha)). rewrite forallb_forall in T.
  specialize (T b (re_digit_cases b Hb)). rewrite forallb_forall in T.
  specialize (T c (re_digit_cases c Hc)). rewrite forallb_forall in T.
  specialize (T d (re_digit_cases d Hd)).
  unfold window_20xx_ok in T. rewrite Hw in T. simpl in T.
  simpl. rewrite T, Hc, Hd. reflexivity.
Qed.

Lemma matches_at_Pat4 (p : JS.YearPattern) text i m :
  matches_at p text i m -> matches_at JS.Pat4 text i m.
Proof.
  intros (a & b & c & d & E & Ha & Hb & Hc & Hd & Hp & B1 & B2).
  exists a, b, c, d. repeat split; auto.
  apply pattern_digits_all in Hp as (Da & Db & Dc & Dd).
  simpl. rewrite Da, Db, Dc, Dd. reflexivity.
Qed.

Lemma matches_at_in_window text i m :
  matches_at JS.Pat4 text i m -> year_in_window m = true ->
  matches_at JS.Pat20xx text i m.
Proof.
  intros (a & b & c & d & -> & Ha & Hb & Hc & Hd & Hp & B1 & B2) Hw.
  exists a, b, c, d. repeat split; auto. apply window_is_20xx; assumption.
Qed.

Lemma Pat4_in_window text m :
  JS.String_match text JS.Pat4 = Some m -> year_in_window m = true ->
  JS.String_match text JS.Pat20xx = Some m.
Proof.
  intros H Hw. apply String_match_leftmost in H as (i & Hm & Hleft).
  apply String_match_leftmost. exists i.
  split; [apply matches_at_in_window; assumption|].
  intros j m' Hj Hm'. apply (Hleft j m' Hj). eapply matches_at_Pat4, Hm'.
Qed.

Lemma extractYear_Pat20xx (text : string) :
  extractYear text =
  match JS.String_match text JS.Pat20xx with
  | Some m => if year_in_window m then m else "Unknown"
  | None => "Unknown"
  end.
Proof.
  unfold extractYear, yearPatterns.
  rewrite !extractYear_from_step. cbn [extractYear_from].
  destruct (JS.String_match text JS.Pat20xx) as [m1|] eqn:E1.
  - destruct (year_in_window m1) eqn:W1; [reflexivity|].
    destruct (JS.String_match text JS.Pat4) as [m2|] eqn:E2; [|reflexivity].
    destruct (year_in_window m2) eqn:W2; [|reflexivity].
    apply Pat4_in_window in E2; [|exact W2]. congruence.
  - destruct (JS.String_match text JS.Pat4) as [m2|] eqn:E2; [|reflexivity].
    destruct (year_in_window m2) eqn:W2; [|reflexivity].
    apply Pat4_in_window in E2; [|exact W2]. congruence.
Qed.

(** X8. The four-digit pattern never contributes: the year extractor
    answers the leftmost occurrence of a 20xx number between word
    boundaries when it is at most 2025, and the sentinel otherwise, also
    when a later number of the text lies in the window. *)
Theorem extractYear_leftmost_20xx :
  (forall text,
     extractYear text =
     match JS.String_match text JS.Pat20xx with
     | Some m => if year_in_window m then m else "Unknown"
     | None => "Unknown"
     end) /\
  extractYear "reprint of 2030, first printed 2015" = "Unknown" /\
  extractYear "volume 1999, digitised 2015" = "2015".
Proof.
  split; [exact extractYear_Pat20xx|].
  split; vm_compute; reflexivity.
Qed.

Lemma get_Substring (text : string) : forall (i : nat) (a b c d : ascii),
  String.get i text = Some a -> String.get (i + 1) text = Some b ->
  String.get (i + 2) text = Some c -> String.get (i + 3) text = Some d ->
  Substring (four a b c d) text.
Proof.
  induction text as [|x text IH]; intros i a b c d Ha Hb Hc Hd.
  - discriminate Ha.
  - destruct i as [|i].
    + simpl in Ha, Hb, Hc, Hd. injection Ha as ->.
      destruct text as [|y [|z [|w rest]]]; simpl in *; try discriminate.
      injection Hb as ->. injection Hc as ->. injection Hd as ->.
      exists "", rest. reflexivity.
    + simpl in Ha, Hb, Hc, Hd.
      destruct (IH i a b c d Ha Hb Hc Hd) as (before & after & ->).
      exists (String x before), after. reflexivity.
Qed.

Lemma matches_at_long p text i m :
  matches_at p text i m -> (i + 4 <= String.length text)%nat.
Proof.
  intros (a & b & c & d & _ & _ & _ & _ & Hd & _).
  unfold nth_char in Hd.
  destruct (le_lt_dec (String.length text) (i + 3)) as [H|H]; [|lia].
  rewrite get_beyond in Hd by exact H. discriminate.
Qed.

(** X9. A year the extractor answers is written in the text: it is four
    characters of the text, the digits 2 and 0 and two more digits, and
    its value lies in [2000, 2025]. A text of fewer than four characters,
    the empty text included, gives the sentinel. *)
Theorem extractYear_occurs_in_text (text : string) :
  (extractYear text <> "Unknown" ->
   Substring (extractYear text) text /\
   (exists c d,
      extractYear text = four "2" "0" c d /\
      JS.re_digit c = true /\ JS.re_digit d = true) /\
   isYearInRange (extractYear text) = true) /\
  ((String.length text < 4)%nat -> extractYear text = "Unknown").
Proof.
  rewrite extractYear_Pat20xx.
  destruct (JS.String_match text JS.Pat20xx) as [m|] eqn:E.
  - pose proof E as E'.
    apply String_match_leftmost in E' as (i & Hm & _).
    pose proof (matches_at_long _ _ _ _ Hm) as Hlen. split.
    + destruct (year_in_window m) eqn:W; [|intros H; contradiction].
      intros _.
      destruct Hm as (a & b & c & d & -> & Ha & Hb & Hc & Hd & Hp & _).
      split; [eapply get_Substring; eassumption|]. split.
      * simpl in Hp. rewrite !andb_true_iff in Hp.
        destruct Hp as [[[Ea Eb] Dc] Dd].
        apply Ascii.eqb_eq in Ea, Eb. subst. exists c, d. auto.
      * destruct (match_reprint _ _ _ E) as [R1 R2].
        rewrite <- (R2 W) at 1. rewrite R1. exact W.
    + intros H. lia.
  - split; [intros H; contradiction | reflexivity].
Qed.

Lemma extractYear_occurs_in_text_witness :
  Substring "2015" "Published 2015".
Proof.
  apply (proj1 (extractYear_occurs_in_text "Published 2015")).
  discriminate.
Defined.

(** ** The fetchers, continued *)

Section FetcherFacts.

Context (platform : Platform) (this : ArchiveSearcher).

Lemma verify_nonempty (t : string) : verify this t = true -> t <> "".
Proof. intros H. apply verify_iff in H. tauto. Qed.

Lemma fetched_verified (f : Fetcher) (r : SearchResult) :
  r ∈ fetched platform this f -> verify this (title r) = true.
Proof.
  destruct f; intros H.
  - apply archive_fetched in H as (data & item & _ & _ & V & ->). exact V.
  - apply books_fetched in H
      as (data & item & vi & _ & _ & _ & _ & _ & _ & V & _). exact V.
  - apply reddit_fetched in H as (s & data & post & _ & _ & _ & V & ->).
    exact V.
  - apply library_fetched in H as (l & data & el & _ & _ & _ & A & _ & ->).
    unfold library_accepts in A. apply andb_true_iff in A as [_ V]. exact V.
  - apply engine_fetched in H
      as (g & data & el & _ & _ & _ & _ & _ & _ & V & ->). exact V.
Qed.

Lemma searchAll_elem_of (r : SearchResult) :
  r ∈ searchAll platform this -> exists f, r ∈ fetched platform this f.
Proof.
  rewrite searchAll_fetched. unfold deduplicateResults. intros H.
  apply deduplicate_filter_fresh in H as [_ H].
  apply elem_of_concat_map in H as (f & _ & H). exists f. exact H.
Qed.

End FetcherFacts.

(** X10. Every record a fetcher emits, and so every record [searchAll]
    returns, has a non-empty title that passes identity verification
    against the target name. *)
Theorem emitted_titles_are_verified (platform : Platform)
    (this : ArchiveSearcher) (r : SearchResult) :
  (exists f, r ∈ fetched platform this f) \/ r ∈ searchAll platform this ->
  verifyMagazineIdentity (magazine_name this) (title r) = true /\
  title r <> "".
Proof.
  intros H.
  assert (exists f, r ∈ fetched platform this f) as (f & Hf).
  { destruct H as [H|H]; [exact H | apply searchAll_elem_of, H]. }
  pose proof (fetched_verified platform this f r Hf) as V.
  split; [exact V | apply (verify_nonempty this), V].
Qed.

Lemma emitted_titles_are_verified_witness :
  verifyMagazineIdentity "Widget Monthly" "Widget Monthly" = true /\
  "Widget Monthly" <> "".
Proof.
  apply (emitted_titles_are_verified Sample.platform
           (Sample.searcher Sample.library_only)
           (mkResult "HathiTrust" "Widget Monthly" "2012"
              "https://babel.hathitrust.org/Record/100" "")).
  right. vm_compute. left.
Defined.

(** X11. The source of a record names the fetcher, and the unit, it comes
    from: [archive.org], [google_books], [reddit/r/] followed by one of
    the four communities, the name of one of the four libraries, or
    [Google] or [Bing]. *)
Theorem emitted_sources (platform : Platform) (this : ArchiveSearcher)
    (f : Fetcher) (r : SearchResult) :
  r ∈ fetched platform this f ->
  match f with
  | ArchiveOrg => source r = "archive.org"
  | GoogleBooks => source r = "google_books"
  | RedditArchives =>
      exists subreddit,
        subreddit ∈ ["magazines"; "archival"; "vintageculture";
                     "OldSchoolCool"] /\
        source r = "reddit/r/" +:+ subreddit
  | DigitalLibraries =>
      source r ∈ ["HathiTrust"; "Internet Archive";
                  "Digital Public Library of America"; "WorldCat"]
  | GeneralWeb => source r ∈ ["Google"; "Bing"]
  end.
Proof.
  destruct f; intros H.
  - apply archive_fetched in H as (data & item & _ & _ & _ & ->).
    reflexivity.
  - apply books_fetched in H
      as (data & item & vi & _ & _ & _ & _ & _ & _ & _ & ->). reflexivity.
  - apply reddit_fetched in H as (s & data & post & Hs & _ & _ & _ & ->).
    exists s. split; [exact Hs | reflexivity].
  - apply library_fetched in H as (l & data & el & Hl & _ & _ & _ & _ & ->).
    cbn [source library_result].
    apply (list_elem_of_fmap_2 DigitalLibrary.name) in Hl. exact Hl.
  - apply engine_fetched in H
      as (g & data & el & Hg & _ & _ & _ & _ & _ & _ & ->).
    cbn [source engine_result].
    apply (list_elem_of_fmap_2 SearchEngine.name) in Hg. exact Hg.
Qed.

Lemma emitted_sources_witness :
  "HathiTrust" ∈ ["HathiTrust"; "Internet Archive";
                  "Digital Public Library of America"; "WorldCat"].
Proof.
  apply (emitted_sources Sample.platform
           (Sample.searcher Sample.library_only) DigitalLibraries
           (mkResult "HathiTrust" "Widget Monthly" "2012"
              "https://babel.hathitrust.org/Record/100" "")).
  vm_compute. left.
Defined.

Lemma substring_prefix (s : string) :
  forall n : nat, exists rest, s = String.substring 0 n s +:+ rest.
Proof.
  induction s as [|c s IH]; intros [|n]; simpl.
  - exists "". reflexivity.
  - exists "". reflexivity.
  - exists (String c s). reflexivity.
  - destruct (IH n) as (rest & E). exists rest.
    rewrite append_cons, <- E. reflexivity.
Qed.

Lemma substring_length_min (s : string) :
  forall n : nat,
  String.length (String.substring 0 n s) = Nat.min n (String.length s).
Proof.
  induction s as [|c s IH]; intros [|n]; simpl; try reflexivity.
  rewrite IH. reflexivity.
Qed.

(** X12. The description of a record of the social fetcher is the body of
    the post cut after 200 characters: it is the beginning of the body
    (the empty string when the post has no body), the whole body when the
    body has at most 200 characters and its first 200 characters
    otherwise. The url is the permalink of the post on
    [https://reddit.com]. *)
Theorem social_description_is_cut (platform : Platform)
    (this : ArchiveSearcher) (r : SearchResult) :
  r ∈ fetched platform this RedditArchives ->
  exists subreddit data post body rest,
    reddit_request this subreddit = inr data /\
    post ∈ reddit_children data /\
    body =
    match RedditResponse.selftext (RedditResponse.data post) with
    | Some text => text
    | None => ""
    end /\
    body = description r +:+ rest /\
    String.length (description r) = Nat.min 200 (String.length body) /\
    url r =
    "https://reddit.com"
    +:+ RedditResponse.permalink (RedditResponse.data post).
Proof.
  intros H.
  apply reddit_fetched in H as (s & data & post & _ & Hd & Hp & _ & ->).
  cbn [description url reddit_result]. unfold JS.slice0.
  assert (JS.or_else (RedditResponse.selftext (RedditResponse.data post)) ""
          = match RedditResponse.selftext (RedditResponse.data post) with
            | Some text => text
            | None => ""
            end) as E.
  { unfold JS.or_else.
    destruct (RedditResponse.selftext (RedditResponse.data post)) as [t|];
      [|reflexivity].
    destruct (JS.falsy t) eqn:F; [|reflexivity].
    apply falsy_empty in F. subst t. reflexivity. }
  rewrite E.
  destruct (substring_prefix
              match RedditResponse.selftext (RedditResponse.data post) with
              | Some text => text
              | None => ""
              end 200) as (rest & Hrest).
  eexists s, data, post, _, rest.
  split; [exact Hd|]. split; [exact Hp|]. split; [reflexivity|].
  split; [exact Hrest|]. split; [apply substring_length_min | reflexivity].
Qed.

Lemma social_description_is_cut_witness :
  String.length long_body = 210%nat /\
  String.length (String.substring 0 200 long_body) = 200%nat /\
  exists subreddit data post body rest,
    reddit_request (Sample.searcher (reddit_answering [long_post])) subreddit
    = inr data /\
    post ∈ reddit_children data /\
    body =
    match RedditResponse.selftext (RedditResponse.data post) with
    | Some text => text
    | None => ""
    end /\
    body = String.substring 0 200 long_body +:+ rest /\
    String.length (String.substring 0 200 long_body)
    = Nat.min 200 (String.length body) /\
    "https://reddit.com/r/magazines/comments/def/all/" =
    "https://reddit.com"
    +:+ RedditResponse.permalink (RedditResponse.data post).
Proof.
  split; [reflexivity|]. split; [reflexivity|].
  apply (social_description_is_cut Sample.platform
           (Sample.searcher (reddit_answering [long_post]))
           (mkResult "reddit/r/magazines" "Widget Monthly, all issues"
              "2013" "https://reddit.com/r/magazines/comments/def/all/"
              (String.substring 0 200 long_body))).
  vm_compute. left.
Defined.

(** ** Requests *)

Lemma requests_sequential {U} (request after : U -> Event) (units : list U) :
  (forall u, is_get (request u) = true) ->
  (forall u, is_get (after u) = false) ->
  requests (sequential_trace request after units) = map request units.
Proof.
  intros Hr Ha. unfold requests, sequential_trace.
  induction units as [|u units IH]; simpl; [reflexivity|].
  rewrite Hr, Ha, IH. reflexivity.
Qed.

(** X13. Whatever the responses are, a fetcher issues exactly the requests
    it is written to issue, once each and in the order of its list: one
    for each catalog, four for the social fetcher, four for the digital
    libraries, two for the general web. A unit that fails is not tried
    again, and it does not keep the later units from being tried. *)
Theorem requests_are_fixed (platform : Platform) (this : ArchiveSearcher)
    (f : Fetcher) :
  requests (events (method platform this f)) = planned_requests this f /\
  length (planned_requests this f) =
  match f with
  | ArchiveOrg | GoogleBooks => 1%nat
  | RedditArchives | DigitalLibraries => 4%nat
  | GeneralWeb => 2%nat
  end.
Proof.
  split; [|destruct f; reflexivity].
  unfold events. destruct f; cbn [method planned_requests].
  - rewrite searchArchiveOrg_run. cbn [fst]. unfold archive_events.
    destruct (archive_request this); reflexivity.
  - rewrite searchGoogleBooks_run. cbn [fst]. unfold books_events.
    destruct (books_request this); reflexivity.
  - rewrite searchRedditArchives_run. cbn [fst].
    apply requests_sequential; [reflexivity|].
    intros s. unfold reddit_after. destruct (reddit_request this s);
      reflexivity.
  - rewrite searchDigitalLibraries_run. cbn [fst].
    apply requests_sequential; [reflexivity|].
    intros l. unfold library_after.
    destruct (library_threw platform this l); reflexivity.
  - rewrite searchGeneralWeb_run. cbn [fst].
    apply requests_sequential; [reflexivity|].
    intros g. unfold engine_after. destruct (engine_request this g);
      reflexivity.
Qed.

Lemma paced_sequential {U} (ms : Z) (request after : U -> Event)
    (units : list U) :
  (forall u, is_get (request u) = true) ->
  (forall u, after u = EvDelay ms \/ exists msg e, after u = EvError msg e) ->
  paced ms (sequential_trace request after units) = true <->
  Forall (fun u => after u = EvDelay ms) units.
Proof.
  intros Hr Ha. unfold sequential_trace.
  induction units as [|u units IH]; simpl.
  - split; [constructor | reflexivity].
  - rewrite Forall_cons. rewrite <- IH. clear IH.
    pose proof (Hr u) as Hu. destruct (request u) as [x ps| |];
      try discriminate.
    cbn [paced]. destruct (Ha u) as [E|(msg & e & E)]; rewrite E.
    + cbn [delay_comes_first paced]. rewrite Z.eqb_refl. simpl. tauto.
    + cbn [delay_comes_first paced].
      assert (delay_comes_first ms
                (concat (map (fun u0 => [request u0; after u0]) units))
              = false) as ->.
      { destruct units as [|v units]; [reflexivity|]. simpl.
        pose proof (Hr v) as Hv. destruct (request v); try discriminate.
        reflexivity. }
      simpl. split; [discriminate | intros [[=] _]].
Qed.

(** X14. A looping fetcher keeps the pace the specification asks for, a
    delay after every request, exactly when none of its units throws. *)
Theorem paced_unless_a_unit_throws (platform : Platform)
    (this : ArchiveSearcher) :
  (paced 2000 (events (searchRedditArchives platform this)) = true <->
   Forall (fun s => ~ failed (reddit_request this s)) subreddits) /\
  (paced 2000 (events (searchDigitalLibraries platform this)) = true <->
   Forall (fun l => library_threw platform this l = None) (libraries this))
  /\
  (paced 3000 (events (searchGeneralWeb platform this)) = true <->
   Forall (fun g => ~ failed (engine_request this g)) (searchEngines this)).
Proof.
  unfold events.
  rewrite searchRedditArchives_run, searchDigitalLibraries_run,
    searchGeneralWeb_run. cbn [fst].
  split; [|split].
  - rewrite paced_sequential.
    + apply Forall_proper; [|reflexivity]. intros s. unfold reddit_after.
      destruct (reddit_request this s); simpl; split;
        try discriminate; tauto.
    + reflexivity.
    + intros s. unfold reddit_after. destruct (reddit_request this s);
        [right; eauto | left; reflexivity].
  - rewrite paced_sequential.
    + apply Forall_proper; [|reflexivity]. intros l. unfold library_after.
      destruct (library_threw platform this l); split;
        try discriminate; reflexivity.
    + reflexivity.
    + intros l. unfold library_after.
      destruct (library_threw platform this l);
        [right; eauto | left; reflexivity].
  - rewrite paced_sequential.
    + apply Forall_proper; [|reflexivity]. intros g. unfold engine_after.
      destruct (engine_request this g); simpl; split;
        try discriminate; tauto.
    + reflexivity.
    + intros g. unfold engine_after. destruct (engine_request this g);
        [right; eauto | left; reflexivity].
Qed.

Lemma paced_unless_a_unit_throws_witness :
  paced 2000
    (events (searchRedditArchives Sample.platform
               (Sample.searcher quiet_client))) = true.
Proof.
  apply (proj1 (paced_unless_a_unit_throws Sample.platform
                  (Sample.searcher quiet_client))).
  repeat constructor; intros [].
Defined.

(** ** The aggregator, continued *)

Lemma fetchers_all (f : Fetcher) : f ∈ fetchers.
Proof. destruct f; unfold fetchers; repeat constructor. Qed.

(** X15. What [searchAll] returns: records with pairwise distinct urls,
    each of them emitted by one of the fetchers; every url a fetcher
    emitted is the url of one of them; and the deduplicated records of the
    text archive's fetcher come first, whatever the other fetchers found
    ([Promise.all] keeps the order of the methods, so a record of an
    earlier fetcher is never dropped for a later one). *)
Theorem searchAll_merges (platform : Platform) (this : ArchiveSearcher) :
  NoDup (map url (searchAll platform this)) /\
  (forall r,
     r ∈ searchAll platform this ->
     exists f, r ∈ fetched platform this f) /\
  (forall f r,
     r ∈ fetched platform this f ->
     url r ∈ map url (searchAll platform this)) /\
  (exists rest,
     searchAll platform this =
     deduplicateResults (fetched platform this ArchiveOrg) ++ rest).
Proof.
  split; [|split; [|split]].
  - rewrite searchAll_fetched. apply deduplicate_filter_NoDup.
  - apply searchAll_elem_of.
  - intros f r Hr. rewrite searchAll_fetched. unfold deduplicateResults.
    apply deduplicate_filter_urls. split; [apply not_elem_of_empty|].
    apply (list_elem_of_fmap_2 url). apply elem_of_concat_map.
    exists f. split; [apply fetchers_all | exact Hr].
  - rewrite searchAll_fetched. unfold fetchers. cbn [map concat].
    unfold deduplicateResults. rewrite deduplicate_filter_app.
    eexists. reflexivity.
Qed.

(** ** The catalogs and the library pages, continued *)

Lemma collect_filter_map {X} (accept : X -> bool) (make : X -> SearchResult)
    (l : list X) :
  (collect (fun x => if accept x then Some (inr (make x)) else None) l).1
  = map make (List.filter accept l).
Proof.
  induction l as [|x l IH]; simpl; [reflexivity|].
  destruct (accept x); simpl; rewrite IH; reflexivity.
Qed.

(** X16. The text archive's fetcher returns the documents of the response
    whose title passes verification, normalised, in the order of the
    response; it returns nothing when the request fails or the response
    has no list of documents. *)
Theorem archive_records_in_order (this : ArchiveSearcher) :
  outcome (searchArchiveOrg this) =
  inr match archive_request this with
      | inr data =>
          match ArchiveOrgResponse.response data
                ≫= ArchiveOrgResponse.docs with
          | Some docs =>
              map archiveOrg_result
                (List.filter
                   (fun item => verify this (ArchiveOrgResponse.title item))
                   docs)
          | None => []
          end
      | inl _ => []
      end.
Proof.
  unfold outcome. rewrite searchArchiveOrg_run. cbn [snd]. f_equal.
  unfold archive_records, archive_docs.
  destruct (archive_request this) as [e|data]; [reflexivity|].
  destruct (ArchiveOrgResponse.response data ≫= ArchiveOrgResponse.docs)
    as [docs|]; [|reflexivity].
  apply (collect_filter_map
           (fun item => verify this (ArchiveOrgResponse.title item))
           archiveOrg_result).
Qed.

Lemma collect_cut {X} (step : X -> option (exn + SearchResult))
    (l1 l2 : list X) (x : X) (e : exn) :
  step x = Some (inl e) ->
  (collect step (l1 ++ x :: l2)).1 = (collect step l1).1.
Proof.
  intros Hx. induction l1 as [|y l1 IH]; simpl.
  - rewrite Hx. reflexivity.
  - destruct (step y) as [[e'|r]|]; simpl; [reflexivity | | exact IH].
    rewrite IH. reflexivity.
Qed.

(** X17. On a library page, an accepted element whose link the URL
    constructor refuses ends the page: the records of the unit come from
    the elements before it, and no element after it is emitted. *)
Theorem bad_link_ends_the_page (platform : Platform)
    (this : ArchiveSearcher) (library : DigitalLibrary.t) (data : string)
    (before after : list Cheerio.Element) (bad : Cheerio.Element)
    (e : exn) (st : Store) (r : SearchResult) :
  library_request this library = inr data ->
  library_elements platform library data = before ++ bad :: after ->
  library_accepts this library bad = true ->
  library_link platform library bad = inl e ->
  r ∈ results (library_unit platform this library st).1 ->
  r ∈ results st \/
  exists element resolved,
    element ∈ before /\
    library_link platform library element = inr resolved /\
    r = library_result library element resolved.
Proof.
  intros Hd Hel Ha Hk. rewrite library_unit_run. cbn [fst results].
  rewrite elem_of_app. intros [H|H]; [left; exact H | right].
  unfold library_records in H. rewrite Hd, Hel in H.
  rewrite (collect_cut _ _ _ bad e) in H.
  - apply collect_elem_of in H as (el & Hin & Hs).
    unfold library_step in Hs.
    destruct (library_accepts this library el); [|discriminate].
    destruct (library_link platform library el) as [e'|u] eqn:L;
      [discriminate|].
    injection Hs as <-. exists el, u. auto.
  - unfold library_step. rewrite Ha, Hk. reflexivity.
Qed.

Lemma bad_link_ends_the_page_witness :
  hathi_library ∈ libraries (Sample.searcher Sample.library_only) /\
  (mkResult "HathiTrust" "Widget Monthly" "2012"
     "https://babel.hathitrust.org/Record/100" "" ∈ results empty_store \/
   exists element resolved,
     element ∈ [Sample.record_element "Widget Monthly" "Widget Monthly 2012"
                  "/Record/100"] /\
     library_link Sample.platform hathi_library element = inr resolved /\
     mkResult "HathiTrust" "Widget Monthly" "2012"
       "https://babel.hathitrust.org/Record/100" ""
     = library_result hathi_library element resolved).
Proof.
  split; [left|].
  apply (bad_link_ends_the_page Sample.platform
           (Sample.searcher Sample.library_only) hathi_library
           Sample.hathi_page
           [Sample.record_element "Widget Monthly" "Widget Monthly 2012"
              "/Record/100"]
           []
           (Sample.record_element "Widget Monthly Index"
              "Widget Monthly Index" "http://")
           Sample.invalid_url empty_store).
  - reflexivity.
  - reflexivity.
  - reflexivity.
  - reflexivity.
  - vm_compute. left.
Defined.

(** ** The command line *)

Lemma eqb_sym (a b : string) : String.eqb a b = String.eqb b a.
Proof.
  destruct (String.eqb_spec a b) as [->|H].
  - symmetry. apply String.eqb_refl.
  - symmetry. apply String.eqb_neq. congruence.
Qed.

Lemma reduce_groups_snoc (l : list SearchResult) (r : SearchResult) :
  forall acc,
  reduce_groups acc (l ++ [r]) =
  match reduce_groups acc l with
  | inr a => group_step a r
  | inl e => inl e
  end.
Proof.
  induction l as [|x l IH]; intros acc; simpl.
  - destruct (group_step acc r); reflexivity.
  - destruct (group_step acc x); [reflexivity | apply IH].
Qed.

Lemma first_seen_elem_of (l : list string) (x : string) :
  x ∈ first_seen l <-> x ∈ l.
Proof.
  induction l as [|y l IH]; simpl; [reflexivity|].
  rewrite !elem_of_cons, list_elem_of_In, filter_In, <- list_elem_of_In,
    IH, negb_true_iff, String.eqb_neq.
  destruct (decide (x = y)); tauto.
Qed.

Lemma first_seen_NoDup (l : list string) : NoDup (first_seen l).
Proof.
  induction l as [|y l IH]; simpl; [constructor|].
  constructor.
  - rewrite list_elem_of_In, filter_In, String.eqb_refl.
    intros [_ [=]].
  - apply NoDup_ListNoDup, List.NoDup_filter, NoDup_ListNoDup, IH.
Qed.

Lemma first_seen_snoc (l : list string) (x : string) :
  first_seen (l ++ [x]) =
  first_seen l ++ (if decide (x ∈ l) then [] else [x]).
Proof.
  induction l as [|y l IH]; simpl.
  - destruct (decide (x ∈ [])) as [H|_]; [inversion H | reflexivity].
  - rewrite IH, List.filter_app. f_equal. f_equal.
    destruct (decide (x ∈ l)) as [Hl|Hl];
      destruct (decide (x ∈ y :: l)) as [Hy|Hy]; simpl.
    + reflexivity.
    + exfalso. apply Hy. right. exact Hl.
    + apply elem_of_cons in Hy as [->|Hy]; [|contradiction].
      rewrite String.eqb_refl. reflexivity.
    + destruct (String.eqb_spec x y) as [->|_]; [|reflexivity].
      exfalso. apply Hy. left.
Qed.

Lemma push_own_groups (s : string) (r : SearchResult)
    (g : string -> list SearchResult) (ks : list string) :
  NoDup ks ->
  push_own s r (map (fun k => (k, g k)) ks) =
  if decide (s ∈ ks)
  then Some (map (fun k => (k, if String.eqb k s then g k ++ [r] else g k))
                 ks)
  else None.
Proof.
  induction ks as [|k ks IH]; intros Hnd; simpl.
  - destruct (decide (s ∈ [])) as [H|_]; [inversion H | reflexivity].
  - apply NoDup_cons in Hnd as [Hk Hnd].
    destruct (String.eqb_spec k s) as [->|Hne].
    + destruct (decide (s ∈ s :: ks)) as [_|H]; [|exfalso; apply H; left].
      f_equal. f_equal. apply map_ext_in. intros k Hin.
      destruct (String.eqb_spec k s) as [->|_]; [|reflexivity].
      exfalso. apply Hk, list_elem_of_In, Hin.
    + rewrite (IH Hnd).
      destruct (decide (s ∈ ks)) as [Hs|Hs];
        destruct (decide (s ∈ k :: ks)) as [Hs'|Hs']; try reflexivity.
      * exfalso. apply Hs'. right. exact Hs.
      * exfalso. apply elem_of_cons in Hs' as [E|E]; congruence.
Qed.

Lemma with_source_snoc (k : string) (l : list SearchResult)
    (r : SearchResult) :
  with_source k (l ++ [r]) =
  with_source k l ++ (if String.eqb (source r) k then [r] else []).
Proof. unfold with_source. rewrite List.filter_app. reflexivity. Qed.

Lemma with_source_none (k : string) (l : list SearchResult) :
  k ∉ map source l -> with_source k l = [].
Proof.
  intros H. unfold with_source. induction l as [|x l IH]; [reflexivity|].
  simpl. destruct (String.eqb_spec (source x) k) as [E|_].
  - exfalso. apply H. simpl. rewrite E. left.
  - apply IH. intros Hin. apply H. right. exact Hin.
Qed.

Lemma plain_not_prototype (s : string) :
  plain_source s = true -> is_prototype_name s = false.
Proof.
  unfold plain_source. rewrite andb_true_iff, !negb_true_iff. tauto.
Qed.

Lemma reduce_groups_plain (results : list SearchResult) :
  Forall (fun r => plain_source (source r) = true) results ->
  reduce_groups [] results = inr (groups_of results).
Proof.
  induction results as [|r l IH] using rev_ind; [reflexivity|].
  intros H. apply Forall_app in H as [Hl Hr].
  rewrite Forall_singleton in Hr.
  rewrite reduce_groups_snoc, (IH Hl). unfold group_step, groups_of.
  rewrite push_own_groups by apply first_seen_NoDup.
  rewrite map_app. cbn [map]. rewrite first_seen_snoc.
  destruct (decide (source r ∈ first_seen (map source l))) as [Hin|Hin].
  - rewrite first_seen_elem_of in Hin.
    destruct (decide (source r ∈ map source l)) as [_|]; [|contradiction].
    rewrite app_nil_r. f_equal. apply map_ext. intros k.
    rewrite with_source_snoc, (eqb_sym k).
    destruct (String.eqb (source r) k); [reflexivity|].
    rewrite app_nil_r. reflexivity.
  - rewrite first_seen_elem_of in Hin.
    destruct (decide (source r ∈ map source l)) as [|_]; [contradiction|].
    rewrite (plain_not_prototype _ Hr), map_app. cbn [map]. f_equal. f_equal.
    + apply map_ext_in. intros k Hk. rewrite with_source_snoc.
      destruct (String.eqb_spec (source r) k) as [E|_].
      * exfalso. apply Hin. rewrite E.
        apply first_seen_elem_of, list_elem_of_In, Hk.
      * rewrite app_nil_r. reflexivity.
    + rewrite with_source_snoc, String.eqb_refl, with_source_none by exact Hin.
      reflexivity.
Qed.

Lemma filter_all {A} (p : A -> bool) (l : list A) :
  Forall (fun x => p x = true) l -> List.filter p l = l.
Proof.
  induction 1 as [|x l Hx _ IH]; simpl; [reflexivity|].
  rewrite Hx, IH. reflexivity.
Qed.

Lemma filter_none {A} (p : A -> bool) (l : list A) :
  Forall (fun x => p x = false) l -> List.filter p l = [].
Proof.
  induction 1 as [|x l Hx _ IH]; simpl; [reflexivity|].
  rewrite Hx, IH. reflexivity.
Qed.

Lemma Object_entries_plain {V} (o : list (string * V)) :
  Forall (fun kv => is_array_index kv.1 = false) o -> Object_entries o = o.
Proof.
  intros H. unfold Object_entries.
  rewrite (filter_none _ _ H), filter_all; [reflexivity|].
  eapply Forall_impl; [exact H|]. intros kv E. cbv beta. rewrite E.
  reflexivity.
Qed.

Lemma groups_of_keys (results : list SearchResult) :
  map fst (groups_of results) = first_seen (map source results).
Proof.
  unfold groups_of. rewrite map_map. apply map_id.
Qed.

Lemma block_first {A} (f : string -> list A) (s : string) (ks : list string) :
  NoDup ks -> (s ∉ ks -> f s = []) ->
  concat (map f ks) ≡ₚ
  f s ++ concat (map f (List.filter (fun y => negb (String.eqb y s)) ks)).
Proof.
  induction ks as [|k ks IH]; intros Hnd Hs; simpl.
  - rewrite Hs; [reflexivity | intros H; inversion H].
  - apply NoDup_cons in Hnd as [Hk Hnd].
    destruct (String.eqb_spec k s) as [->|Hne]; simpl.
    + rewrite filter_all; [reflexivity|].
      apply Forall_forall. intros y Hy. apply negb_true_iff, String.eqb_neq.
      intros ->. contradiction.
    + rewrite IH; [| exact Hnd |].
      * rewrite !app_assoc. apply Permutation_app_tail, Permutation_app_comm.
      * intros H. apply Hs. intros H'.
        apply elem_of_cons in H' as [E|E]; [congruence | contradiction].
Qed.

Lemma groups_partition (results : list SearchResult) :
  concat (map snd (groups_of results)) ≡ₚ results.
Proof.
  unfold groups_of. rewrite map_map. cbn [snd].
  induction results as [|x l IH]; [reflexivity|].
  cbn [map first_seen concat]. unfold with_source at 1. cbn [List.filter].
  rewrite String.eqb_refl. fold (with_source (source x) l).
  rewrite <- app_comm_cons. apply Permutation_skip.
  etransitivity; [|exact IH].
  etransitivity;
    [|symmetry;
      apply (block_first (fun s => with_source s l) (source x)
               (first_seen (map source l)))].
  - apply Permutation_app_head.
    assert (map (fun k => with_source k (x :: l))
              (List.filter (fun y => negb (String.eqb y (source x)))
                 (first_seen (map source l)))
            = map (fun k => with_source k l)
                (List.filter (fun y => negb (String.eqb y (source x)))
                   (first_seen (map source l)))) as ->; [|reflexivity].
    apply map_ext_in. intros k Hk. apply filter_In in Hk as [_ Hk].
    apply negb_true_iff in Hk. unfold with_source. cbn [List.filter].
    rewrite eqb_sym, Hk. reflexivity.
  - apply first_seen_NoDup.
  - intros H. apply with_source_none. rewrite first_seen_elem_of in H.
    exact H.
Qed.

(** X18. Grouping by source, for sources that are neither array indices
    nor names of [Object.prototype]: the reduction succeeds; the groups
    come in the order in which their sources first occur; the group of a
    source holds the results with that source, in their order; and
    [Object.entries] lists the groups unchanged. So the groups taken
    together are the results: none is lost and none is repeated. *)
Theorem grouping_by_source (results : list SearchResult) :
  Forall (fun r => plain_source (source r) = true) results ->
  exists groups,
    reduce_groups [] results = inr groups /\
    Object_entries groups = groups /\
    map fst groups = first_seen (map source results) /\
    NoDup (map fst groups) /\
    (forall s rs, (s, rs) ∈ groups -> rs = with_source s results) /\
    concat (map snd groups) ≡ₚ results.
Proof.
  intros H. exists (groups_of results).
  split; [apply reduce_groups_plain, H|].
  split; [|split; [apply groups_of_keys|split; [|split]]].
  - apply Object_entries_plain. apply Forall_forall. intros [s rs] Hin.
    unfold groups_of in Hin. apply list_elem_of_fmap in Hin as (k & E & Hk).
    injection E as -> ->. rewrite first_seen_elem_of in Hk.
    apply (list_elem_of_fmap_1 source) in Hk as (r & -> & Hr).
    rewrite Forall_forall in H. specialize (H r Hr). unfold plain_source in H.
    apply andb_true_iff in H as [H _]. apply negb_true_iff in H. exact H.
  - rewrite groups_of_keys. apply first_seen_NoDup.
  - intros s rs Hin. unfold groups_of in Hin.
    apply list_elem_of_fmap in Hin as (k & E & _). injection E as -> ->.
    reflexivity.
  - apply groups_partition.
Qed.

Lemma grouping_by_source_witness :
  exists groups,
    reduce_groups []
      [ mkResult "archive.org" "Widget Monthly 1" "2011" "u1" "";
        mkResult "Google" "Widget Monthly 2" "2012" "u2" "";
        mkResult "archive.org" "Widget Monthly 3" "2013" "u3" "" ]
    = inr groups /\
    map fst groups = ["archive.org"; "Google"].
Proof.
  destruct (grouping_by_source
              [ mkResult "archive.org" "Widget Monthly 1" "2011" "u1" "";
                mkResult "Google" "Widget Monthly 2" "2012" "u2" "";
                mkResult "archive.org" "Widget Monthly 3" "2013" "u3" "" ])
    as (groups & H1 & _ & H3 & _).
  - repeat constructor.
  - exists groups. split; [exact H1 | exact H3].
Defined.

Section MainFacts.

Context (platform : Platform) (this : ArchiveSearcher).




End MainFacts.




Example main_on_the_sample_library :
  main Sample.library_only Sample.platform ["Widget Monthly"] =
  ([ Log "Starting comprehensive search for: Widget Monthly";
     Log (newline +:+ "Found 1 unique results:");
     Log (newline +:+ "=== Results from HathiTrust ===");
     Log (newline +:+ "Title: Widget Monthly");
     Log "Year: 2012";
     Log "URL: https://babel.hathitrust.org/Record/100" ], None).
Proof. vm_compute. reflexivity. Qed.

(** ** The general web, continued *)

(** X21. A record of the general-web fetcher carries the [href] of the
    link as the page writes it, which is not empty and is not resolved
    against the address of the engine; its year is what the year extractor
    reads in the title, a space and the description. *)
Theorem web_url_is_the_href (platform : Platform) (this : ArchiveSearcher)
    (r : SearchResult) :
  r ∈ fetched platform this GeneralWeb ->
  url r <> "" /\
  year r = extractYear (title r +:+ " " +:+ description r) /\
  exists engine data element,
    engine ∈ searchEngines this /\
    engine_request this engine = inr data /\
    element ∈ engine_elements platform engine data /\
    Cheerio.find_href element
      (SearchEngine.link (SearchEngine.selector engine)) = Some (url r).
Proof.
  intros H. apply engine_fetched in H
    as (g & data & el & Hg & Hd & Hel & Hh & _ & Hu & _ & E).
  split; [exact Hu|]. split.
  - rewrite E. reflexivity.
  - exists g, data, el. auto.
Qed.

Lemma web_url_is_the_href_witness :
  "/url?q=https://example.org/wm" <> "" /\
  "2014" = extractYear ("Widget Monthly 2014" +:+ " " +:+ "An issue.").
Proof.
  destruct (web_url_is_the_href web_platform (Sample.searcher web_client)
              (mkResult "Google" "Widget Monthly 2014" "2014"
                 "/url?q=https://example.org/wm" "An issue."))
    as (H1 & H2 & _).
  - vm_compute. left.
  - split; [exact H1 | exact H2].
Defined.
